(** * EDACC: journal tailing, line assembly, event handling and speech dispatch

    A shallow embedding of the two programs of the repository,

      - [app.py]  (class [EliteAssistant], with [SimpleTextToSpeech] and
                   [MiningData]), and
      - [EDAT.py] (class [EliteAsteroidTracker]),

    and the properties of their pipelines.

    Conventions of the model.

      - Python [str] values are Rocq [string]s: a character is a code point
        in U+0000..U+00FF.  File contents are [list byte].
      - A Python [float] is an IEEE 754 binary64 number, a [spec_float] of
        the Standard Library: a signed zero, a finite number, an infinity
        or a NaN.  Order comparisons, [int(x)] and [round(x)] are functions
        of the value of the number ([Py.float_value]): a rational, an
        infinity, or none.  An [int] is an integer of any size; the ints
        of the programs come from [json.loads] and from [int], which
        bound their number of digits, so that an int is always printed.
      - The operating system, the clock, [json.loads] and [bytes.decode] are
        inputs of the functions that use them: an [OS] record of queries
        that may fail, and [Section] variables.  Concrete versions
        ([Json.loads], [Py.decode_ascii]) are given to run the functions on
        concrete journal lines.
      - An exception is a result of its own ([None], or a [false] flag);
        state changes made before it is raised are kept, as in Python.
      - Console output and logging are not part of the state. *)

From Stdlib Require Import String Ascii List ZArith QArith Qround Bool Lia Lqa Arith.
From Stdlib Require Import DecimalString Permutation SpecFloat.
From Stdlib.Strings Require Import Byte.
Import ListNotations.

Close Scope Q_scope.
Open Scope nat_scope.
Open Scope string_scope.
Open Scope list_scope.

(* ===================================================================== *)
(** ** Python built-ins used by the programs *)
(* ===================================================================== *)

Module Py.

Definition LF : ascii := "010"%char.
Definition CR : ascii := "013"%char.
Definition DQ : ascii := "034"%char.

(** [s] between double quotes. *)
Definition quoted (s : string) : string :=
  String DQ (s ++ String DQ "").

(** Journal lines are written with an apostrophe where the journal has a
    double quote; [q] puts the double quotes back. *)
Fixpoint q (s : string) : string :=
  match s with
  | "" => ""
  | String c r => String (if Ascii.eqb c "'" then DQ else c) (q r)
  end.

(** Texts of several lines are written with [$] for a line feed and [^]
    for a carriage return; [eol] puts the characters back. *)
Fixpoint eol (s : string) : string :=
  match s with
  | "" => ""
  | String c r =>
      String (if Ascii.eqb c "$" then LF
              else if Ascii.eqb c "^" then CR else c) (eol r)
  end.

(** [s[n:]]. *)
Fixpoint drop (n : nat) (s : string) : string :=
  match n, s with
  | S n', String _ r => drop n' r
  | _, _ => s
  end.

(** [str.startswith] and [str.endswith]. *)
Definition startswith (s pre : string) : bool := String.prefix pre s.

Fixpoint endswith (s suf : string) : bool :=
  String.eqb s suf ||
  match s with
  | "" => false
  | String _ r => endswith r suf
  end.

(** [sub in s]. *)
Fixpoint contains (sub s : string) : bool :=
  String.prefix sub s ||
  match s with
  | "" => false
  | String _ r => contains sub r
  end.

(** [str.isspace] on one character of U+0000..U+00FF. *)
Definition isspace (c : ascii) : bool :=
  let n := nat_of_ascii c in
  ((9 <=? n) && (n <=? 13) || (28 <=? n) && (n <=? 32)
   || (n =? 133) || (n =? 160))%nat.

Fixpoint lstrip (s : string) : string :=
  match s with
  | "" => ""
  | String c r => if isspace c then lstrip r else s
  end.

Fixpoint rstrip (s : string) : string :=
  match s with
  | "" => ""
  | String c r =>
      match rstrip r with
      | "" => if isspace c then "" else String c ""
      | r' => String c r'
      end
  end.

(** [str.strip()]. *)
Definition strip (s : string) : string := rstrip (lstrip s).

(** [str.lower()] on U+0000..U+00FF: A-Z, and the capital letters
    U+00C0..U+00DE except the multiplication sign U+00D7. *)
Definition lower_char (c : ascii) : ascii :=
  let n := nat_of_ascii c in
  if ((65 <=? n) && (n <=? 90)
      || (192 <=? n) && (n <=? 222) && negb (n =? 215))%nat
  then ascii_of_nat (n + 32) else c.

Fixpoint lower (s : string) : string :=
  match s with
  | "" => ""
  | String c r => String (lower_char c) (lower r)
  end.

(** The characters at which [str.splitlines] ends a line, other than the
    pair CR LF: LF, VT, FF, CR, FS, GS, RS and NEL. *)
Definition is_linebreak (c : ascii) : bool :=
  let n := nat_of_ascii c in
  ((10 <=? n) && (n <=? 13) || (28 <=? n) && (n <=? 30) || (n =? 133))%nat.

Definition cons_first (c : ascii) (ls : list string) : list string :=
  match ls with
  | [] => [String c ""]
  | l :: ls' => String c l :: ls'
  end.

(** [str.splitlines()] (line ends dropped; no empty line after a final
    line end). *)
Fixpoint splitlines (s : string) : list string :=
  match s with
  | "" => []
  | String c r =>
      if is_linebreak c then
        match r with
        | String c2 r2 =>
            if Ascii.eqb c CR && Ascii.eqb c2 LF
            then "" :: splitlines r2
            else "" :: splitlines r
        | "" => [""]
        end
      else cons_first c (splitlines r)
  end.

(** [f.readlines()] of a file opened in text mode with the default
    [newline=None]: LF, CR and CR LF end a line and are read as LF, which
    stays at the end of the line; a last line without a line end is
    returned as it is. *)
Fixpoint readlines (s : string) : list string :=
  match s with
  | "" => []
  | String c r =>
      if Ascii.eqb c LF then String LF "" :: readlines r
      else if Ascii.eqb c CR then
        match r with
        | String c2 r2 =>
            if Ascii.eqb c2 LF
            then String LF "" :: readlines r2
            else String LF "" :: readlines r
        | "" => [String LF ""]
        end
      else cons_first c (readlines r)
  end.

(** [str(n)] of an [int], as an f-string prints it. *)
Definition str_of_int (z : Z) : string :=
  NilZero.string_of_int (Z.to_int z).

(** *** Numbers *)

(** A [float]. *)
Definition float : Type := spec_float.

Definition prec : Z := 53.
Definition emax : Z := 1024.

(** The value of an [int] or of a [float]: a rational number, an
    infinity, or none for a NaN. *)
Inductive value : Type :=
| Num (x : Q)
| PosInf
| NegInf
| NaN.

Definition float_value (f : float) : value :=
  match f with
  | S754_zero _ => Num 0
  | S754_infinity s => if s then NegInf else PosInf
  | S754_nan => NaN
  | S754_finite s m e =>
      let n := if s then Zneg m else Zpos m in
      Num (if (0 <=? e)%Z then inject_Z (n * 2 ^ e)
           else Qmake n (Z.to_pos (2 ^ (- e))))
  end.

(** [a <= b] and [a < b] on numbers: a comparison with a NaN is
    false. *)
Definition le (a b : value) : bool :=
  match a, b with
  | NaN, _ | _, NaN => false
  | NegInf, _ => true
  | _, PosInf => true
  | Num x, Num y => Qle_bool x y
  | _, _ => false
  end.

Definition lt (a b : value) : bool :=
  match a, b with
  | NaN, _ | _, NaN => false
  | _, _ => negb (le b a)
  end.

(** The integer part of a rational: truncation towards zero. *)
Definition truncate (x : Q) : Z :=
  Z.quot (Qnum x) (Zpos (Qden x)).

(** [int(x)] of a float; [None] is the [OverflowError] of an infinity
    and the [ValueError] of a NaN. *)
Definition int_of_float (f : float) : option Z :=
  match float_value f with
  | Num x => Some (truncate x)
  | _ => None
  end.

(** The integer nearest to a rational, a tie going to the even one. *)
Definition nearest_even (x : Q) : Z :=
  let f := Qfloor x in
  match (x - inject_Z f ?= 1 # 2)%Q with
  | Lt => f
  | Gt => (f + 1)%Z
  | Eq => if Z.even f then f else (f + 1)%Z
  end.

(** [round(x)] of a float; [None] is the [OverflowError] of an infinity
    and the [ValueError] of a NaN. *)
Definition round (f : float) : option Z :=
  match float_value f with
  | Num x => Some (nearest_even x)
  | _ => None
  end.

(** [float(s)] for a literal that spells [m * 10^e], [m] not negative,
    with a minus sign when [neg]: the float nearest to the number, a tie
    going to the even one, an infinity when the number is past the
    greatest float.  A number of more than 342 digits before the point
    is past the greatest float, and one under [2^(-1080)] is nearer to
    zero than to any other float: they are not computed. *)
Definition float_of_decimal (neg : bool) (m e : Z) : float :=
  match m with
  | Zpos p =>
      if (341 <? e)%Z then S754_infinity neg
      else if (Z.log2 m + 1 + 3 * e <? - 1080)%Z then S754_zero neg
      else if (0 <=? e)%Z then
        binary_normalize prec emax
          (if neg then - (m * 10 ^ e) else m * 10 ^ e)%Z 0 neg
      else
        SFdiv prec emax (S754_finite neg p 0)
          (S754_finite false (Z.to_pos (10 ^ (- e))) 0)
  | _ => S754_zero neg
  end.

Definition is_digit (c : ascii) : bool :=
  let n := nat_of_ascii c in ((48 <=? n) && (n <=? 57))%nat.

Definition digit_val (c : ascii) : Z := Z.of_nat (nat_of_ascii c - 48).

(** Digits of a decimal literal, where Python allows single underscores
    between digits.  [acc] is the value read so far; [after_digit] tells
    whether the previous character was a digit. *)
Fixpoint int_digits (s : string) (acc : Z) (after_digit : bool) : option Z :=
  match s with
  | "" => if after_digit then Some acc else None
  | String c r =>
      if is_digit c then int_digits r (acc * 10 + digit_val c)%Z true
      else if Ascii.eqb c "_" && after_digit then
        match r with
        | String c2 _ => if is_digit c2 then int_digits r acc false else None
        | "" => None
        end
      else None
  end.

(** The white space [int] passes over at both ends of a string: the
    ASCII white space, and the other characters of [str.isspace] past
    U+007F.  (The separators U+001C..U+001F are not passed over.) *)
Definition is_int_space (c : ascii) : bool :=
  let n := nat_of_ascii c in
  ((9 <=? n) && (n <=? 13) || (n =? 32) || (n =? 133) || (n =? 160))%nat.

Fixpoint lstrip_int (s : string) : string :=
  match s with
  | "" => ""
  | String c r => if is_int_space c then lstrip_int r else s
  end.

Fixpoint rstrip_int (s : string) : string :=
  match s with
  | "" => ""
  | String c r =>
      match rstrip_int r with
      | "" => if is_int_space c then "" else String c ""
      | r' => String c r'
      end
  end.

(** The greatest number of digits of a string that [int] converts, and of
    an integer literal that [json.loads] converts
    ([sys.get_int_max_str_digits()]). *)
Definition max_str_digits : nat := 4300.

Fixpoint count_digits (s : string) : nat :=
  match s with
  | "" => 0
  | String c r => if is_digit c then S (count_digits r) else count_digits r
  end.

(** [int(s)] of a [str] in base 10: surrounding white space, an optional
    sign, digits.  [None] is [ValueError]. *)
Definition int_of_str (s : string) : option Z :=
  let t := rstrip_int (lstrip_int s) in
  if (max_str_digits <? count_digits t)%nat then None
  else
    match t with
    | String "-" r => option_map Z.opp (int_digits r 0%Z false)
    | String "+" r => int_digits r 0%Z false
    | _ => int_digits t 0%Z false
    end.

(** [d.get(k)] for a dict given as the list of its members in the order
    they were written: a key written twice has its last value. *)
Fixpoint dict_get {A : Type} (k : string) (ms : list (string * A)) : option A :=
  match ms with
  | [] => None
  | (k', v) :: r =>
      match dict_get k r with
      | Some v' => Some v'
      | None => if String.eqb k k' then Some v else None
      end
  end.

Definition bytes := list byte.

(** [data.decode('utf-8', errors='ignore')] on ASCII data, where it maps
    every byte to the character of the same code.  It is used to run the
    readers on ASCII journals; the readers take the decoder as an
    argument. *)
Definition decode_ascii (bs : bytes) : string := string_of_list_byte bs.

End Py.

(* ===================================================================== *)
(** ** JSON values and [json.loads] *)
(* ===================================================================== *)

Module Json.

(** What [json.loads] returns: [None], [bool], [int], [float], [str],
    [list] and [dict].  A [dict] is kept as the list of its members in the
    order of the text; [lookup] gives a repeated key its last value, as
    the [dict] built by [json.loads] does. *)
#[warnings="-register-all"]
Inductive json : Type :=
| JNull
| JBool (b : bool)
| JInt (z : Z)
| JFloat (f : Py.float)
| JStr (s : string)
| JArr (items : list json)
| JObj (members : list (string * json)).

Definition lookup (k : string) (ms : list (string * json)) : option json :=
  Py.dict_get k ms.

(** [d.get(k, default)]. *)
Definition get (k : string) (default : json) (ms : list (string * json)) : json :=
  match lookup k ms with
  | Some v => v
  | None => default
  end.

(** Truth value of an object, as [if not x] tests it. *)
Definition truthy (v : json) : bool :=
  match v with
  | JNull => false
  | JBool b => b
  | JInt z => negb (z =? 0)%Z
  | JFloat f =>
      match Py.float_value f with
      | Py.Num x => negb (Qeq_bool x 0)
      | _ => true
      end
  | JStr s => negb (String.eqb s "")
  | JArr l => match l with [] => false | _ :: _ => true end
  | JObj l => match l with [] => false | _ :: _ => true end
  end.

(** [v == s] for a [str] [s]. *)
Definition eq_str (v : json) (s : string) : bool :=
  match v with
  | JStr t => String.eqb t s
  | _ => false
  end.

(** The value of [v] in an order comparison with a number; [None] is
    the [TypeError] of comparing [None], a [str], a [list] or a [dict]
    with a number. *)
Definition number (v : json) : option Py.value :=
  match v with
  | JInt z => Some (Py.Num (inject_Z z))
  | JFloat f => Some (Py.float_value f)
  | JBool b => Some (Py.Num (if b then 1%Q else 0%Q))
  | _ => None
  end.

(** [for x in v]: the items of a list, the characters of a string, the
    keys of a dict; [None] is the [TypeError] of iterating anything
    else. *)
Fixpoint chars (s : string) : list json :=
  match s with
  | "" => []
  | String c r => JStr (String c "") :: chars r
  end.

Definition iter (v : json) : option (list json) :=
  match v with
  | JArr l => Some l
  | JStr s => Some (chars s)
  | JObj ms => Some (map JStr (nodup string_dec (map fst ms)))
  | JNull | JBool _ | JInt _ | JFloat _ => None
  end.

(** *** The decoder *)

(** What a call of [json.loads] does: it returns a value, it raises
    [json.JSONDecodeError], or it raises another exception: the
    [ValueError] of an integer literal of too many digits, the
    [RecursionError] of a text nested too deep. *)
Inductive decoded : Type :=
| Ok (v : json)
| JSONDecodeError
| OtherError.

(** *** Lexical analysis *)

(** [TBigInt] is an integer literal of more than [Py.max_str_digits]
    digits; [TBad] is a place where no token starts. *)
Inductive token : Type :=
| TLBrace | TRBrace | TLBrack | TRBrack | TColon | TComma
| TStr (s : string) | TInt (z : Z) | TBigInt | TFloat (f : Py.float)
| TTrue | TFalse | TNull | TBad.

Definition is_ws (c : ascii) : bool :=
  let n := nat_of_ascii c in
  ((n =? 32) || (n =? 9) || (n =? 10) || (n =? 13))%nat.

Definition hex_val (c : ascii) : option nat :=
  let n := nat_of_ascii c in
  if ((48 <=? n) && (n <=? 57))%nat then Some (n - 48)
  else if ((65 <=? n) && (n <=? 70))%nat then Some (n - 55)
  else if ((97 <=? n) && (n <=? 102))%nat then Some (n - 87)
  else None.

Definition hex4 (a b c d : ascii) : option nat :=
  match hex_val a, hex_val b, hex_val c, hex_val d with
  | Some x, Some y, Some z, Some w => Some (((x * 16 + y) * 16 + z) * 16 + w)
  | _, _, _, _ => None
  end.

Definition escape (e : ascii) : option ascii :=
  let n := nat_of_ascii e in
  if (n =? 34)%nat then Some e                    (* double quote *)
  else if (n =? 92)%nat then Some e               (* backslash *)
  else if (n =? 47)%nat then Some e               (* slash *)
  else if (n =? 98)%nat then Some "008"%char      (* b *)
  else if (n =? 102)%nat then Some "012"%char     (* f *)
  else if (n =? 110)%nat then Some "010"%char     (* n *)
  else if (n =? 114)%nat then Some "013"%char     (* r *)
  else if (n =? 116)%nat then Some "009"%char     (* t *)
  else None.

Definition cons_str (c : ascii) (r : option (string * string)) :=
  match r with
  | Some (s, rest) => Some (String c s, rest)
  | None => None
  end.

(** The text after an opening double quote: the string it spells and what
    follows the closing quote.  A control character is refused; an escape
    [\uXXXX] of a character past U+00FF has no value in this model and is
    refused too. *)
Fixpoint lex_string (s : string) : option (string * string) :=
  match s with
  | "" => None
  | String c r =>
      if Ascii.eqb c Py.DQ then Some ("", r)
      else if Ascii.eqb c "\" then
        match r with
        | "" => None
        | String e r2 =>
            match escape e with
            | Some ch => cons_str ch (lex_string r2)
            | None =>
                if Ascii.eqb e "u" then
                  match r2 with
                  | String h1 (String h2 (String h3 (String h4 r6))) =>
                      match hex4 h1 h2 h3 h4 with
                      | Some n =>
                          if (n <? 256)%nat
                          then cons_str (ascii_of_nat n) (lex_string r6)
                          else None
                      | None => None
                      end
                  | _ => None
                  end
                else None
            end
        end
      else if (nat_of_ascii c <? 32)%nat then None
      else cons_str c (lex_string r)
  end.

(** The longest prefix of digits, as its value and its length, and the
    rest. *)
Fixpoint span_digits (s : string) (acc : Z) (n : nat) : Z * nat * string :=
  match s with
  | String c r =>
      if Py.is_digit c
      then span_digits r (acc * 10 + Py.digit_val c)%Z (S n)
      else (acc, n, s)
  | "" => (acc, n, s)
  end.

(** A number, as the decoder's pattern reads it: an optional minus sign;
    a zero, or a digit from 1 to 9 and more digits; then, if there are, a
    point with one digit or more, and an [e] or [E] with an optional sign
    and one digit or more.  With neither fraction nor exponent it is an
    [int], converted by [int]; otherwise it is a [float], converted by
    [float]. *)
Definition lex_number (s : string) : option (token * string) :=
  let '(neg, s1) :=
    match s with
    | String "-" r => (true, r)
    | _ => (false, s)
    end in
  let int_part :=
    match s1 with
    | String "0" r => Some (0%Z, 1, r)
    | String c _ =>
        if Py.is_digit c
        then let '(v, n, r) := span_digits s1 0%Z 0 in Some (v, n, r)
        else None
    | "" => None
    end in
  match int_part with
  | None => None
  | Some (i, digits, r1) =>
      let '(m, k, r2, has_frac) :=
        match r1 with
        | String "." r =>
            let '(v, n, r') := span_digits r i 0 in
            match n with
            | O => (i, O, r1, false)
            | S _ => (v, n, r', true)
            end
        | _ => (i, O, r1, false)
        end in
      let '(e, r3, has_exp) :=
        match r2 with
        | String c r =>
            if Ascii.eqb c "e" || Ascii.eqb c "E" then
              let '(eneg, r') :=
                match r with
                | String "-" t => (true, t)
                | String "+" t => (false, t)
                | _ => (false, r)
                end in
              let '(v, n, r'') := span_digits r' 0%Z 0 in
              match n with
              | O => (0%Z, r2, false)
              | S _ => ((if eneg then - v else v)%Z, r'', true)
              end
            else (0%Z, r2, false)
        | "" => (0%Z, r2, false)
        end in
      if has_frac || has_exp
      then Some (TFloat (Py.float_of_decimal neg m (e - Z.of_nat k)), r3)
      else if (Py.max_str_digits <? digits)%nat then Some (TBigInt, r3)
      else Some (TInt (if neg then - m else m)%Z, r3)
  end.

(** The tokens of a text, up to the first place where no token starts.
    The literals [NaN], [Infinity] and [-Infinity] are floats.  Every step
    takes one character or more, so as many steps as the text has
    characters, and one, are enough. *)
Fixpoint lex (fuel : nat) (s : string) : list token :=
  match fuel with
  | O => [TBad]
  | S f =>
      match s with
      | "" => []
      | String c r =>
          if is_ws c then lex f r
          else if Ascii.eqb c "{" then TLBrace :: lex f r
          else if Ascii.eqb c "}" then TRBrace :: lex f r
          else if Ascii.eqb c "[" then TLBrack :: lex f r
          else if Ascii.eqb c "]" then TRBrack :: lex f r
          else if Ascii.eqb c ":" then TColon :: lex f r
          else if Ascii.eqb c "," then TComma :: lex f r
          else if Ascii.eqb c Py.DQ then
            match lex_string r with
            | Some (str, rest) => TStr str :: lex f rest
            | None => [TBad]
            end
          else if String.prefix "-Infinity" s
          then TFloat (S754_infinity true) :: lex f (Py.drop 9 s)
          else if Ascii.eqb c "-" || Py.is_digit c then
            match lex_number s with
            | Some (t, rest) => t :: lex f rest
            | None => [TBad]
            end
          else if String.prefix "true" s then TTrue :: lex f (Py.drop 4 s)
          else if String.prefix "false" s then TFalse :: lex f (Py.drop 5 s)
          else if String.prefix "null" s then TNull :: lex f (Py.drop 4 s)
          else if String.prefix "NaN" s
          then TFloat S754_nan :: lex f (Py.drop 3 s)
          else if String.prefix "Infinity" s
          then TFloat (S754_infinity false) :: lex f (Py.drop 8 s)
          else [TBad]
      end
  end.

(** *** Syntax analysis *)

(** The decoder reads a text from left to right and stops at the first
    thing it cannot accept, so the exception it raises is that of the
    first such thing: [Bad] is [json.JSONDecodeError], [Raised] another
    exception. *)
Inductive parsed (A : Type) : Type :=
| Parsed (a : A) (rest : list token)
| Bad
| Raised.

Arguments Parsed {A} a rest.
Arguments Bad {A}.
Arguments Raised {A}.

(** The number of lists and dicts, one inside the other, that the
    decoder enters: past it, it raises [RecursionError].  The number
    depends on the interpreter, on its recursion limit and on the calls
    in progress; it is 992 for the default limit of 1000 of CPython 3.11
    when [json.loads] is called by a handler that the main loop
    calls. *)
Definition recursion_limit : nat := 992.

(** A value at the head of the tokens, and the tokens after it.  A value
    takes less than two steps for each of its tokens; [depth] is the
    number of lists and dicts that can still be entered. *)
Fixpoint parse_value (fuel depth : nat) (ts : list token) : parsed json :=
  match fuel with
  | O => Bad
  | S f =>
      match ts with
      | TNull :: r => Parsed JNull r
      | TTrue :: r => Parsed (JBool true) r
      | TFalse :: r => Parsed (JBool false) r
      | TInt z :: r => Parsed (JInt z) r
      | TBigInt :: _ => Raised
      | TFloat x :: r => Parsed (JFloat x) r
      | TStr s :: r => Parsed (JStr s) r
      | TLBrack :: r =>
          match depth with
          | O => Raised
          | S d =>
              match r with
              | TRBrack :: r' => Parsed (JArr []) r'
              | _ =>
                  match parse_items f d r with
                  | Parsed l r' => Parsed (JArr l) r'
                  | Bad => Bad
                  | Raised => Raised
                  end
              end
          end
      | TLBrace :: r =>
          match depth with
          | O => Raised
          | S d =>
              match r with
              | TRBrace :: r' => Parsed (JObj []) r'
              | _ =>
                  match parse_members f d r with
                  | Parsed l r' => Parsed (JObj l) r'
                  | Bad => Bad
                  | Raised => Raised
                  end
              end
          end
      | _ => Bad
      end
  end

with parse_items (fuel depth : nat) (ts : list token) : parsed (list json) :=
  match fuel with
  | O => Bad
  | S f =>
      match parse_value f depth ts with
      | Parsed v (TRBrack :: r) => Parsed [v] r
      | Parsed v (TComma :: r) =>
          match parse_items f depth r with
          | Parsed l r' => Parsed (v :: l) r'
          | Bad => Bad
          | Raised => Raised
          end
      | Parsed _ _ => Bad
      | Bad => Bad
      | Raised => Raised
      end
  end

with parse_members (fuel depth : nat) (ts : list token)
  : parsed (list (string * json)) :=
  match fuel with
  | O => Bad
  | S f =>
      match ts with
      | TStr k :: TColon :: r =>
          match parse_value f depth r with
          | Parsed v (TRBrace :: r') => Parsed [(k, v)] r'
          | Parsed v (TComma :: r') =>
              match parse_members f depth r' with
              | Parsed l r'' => Parsed ((k, v) :: l) r''
              | Bad => Bad
              | Raised => Raised
              end
          | Parsed _ _ => Bad
          | Bad => Bad
          | Raised => Raised
          end
      | _ => Bad
      end
  end.

(** [json.loads(s)]: one value, with white space around it and nothing
    else. *)
Definition loads (s : string) : decoded :=
  let ts := lex (S (String.length s)) s in
  match parse_value (S (2 * List.length ts)) recursion_limit ts with
  | Parsed v [] => Ok v
  | Parsed _ (_ :: _) => JSONDecodeError
  | Bad => JSONDecodeError
  | Raised => OtherError
  end.

End Json.

(* ===================================================================== *)
(** ** The patterns of the fallback extraction *)
(* ===================================================================== *)

Module Re.

(** [re.search]: the match at the first position that has one. *)
Fixpoint search (here : string -> option string) (s : string) : option string :=
  match here s with
  | Some g => Some g
  | None =>
      match s with
      | "" => None
      | String _ r => search here r
      end
  end.

(** The text after a match of the quoted [key], white space, a colon and
    white space, at the start of [s]. *)
Definition key_colon (key s : string) : option string :=
  if String.prefix (Py.quoted key) s then
    match Py.lstrip (Py.drop (String.length (Py.quoted key)) s) with
    | String ":" r => Some (Py.lstrip r)
    | _ => None
    end
  else None.

(** The shortest text that ends with a closing bracket; the dot of the
    pattern matches no line feed. *)
Fixpoint until_bracket (s : string) : option string :=
  match s with
  | "" => None
  | String c r =>
      if Ascii.eqb c "]" then Some "]"
      else if Ascii.eqb c Py.LF then None
      else option_map (String c) (until_bracket r)
  end.

(** The characters before the next double quote. *)
Fixpoint until_quote (s : string) : option string :=
  match s with
  | "" => None
  | String c r =>
      if Ascii.eqb c Py.DQ then Some ""
      else option_map (String c) (until_quote r)
  end.

(** Group 1 of the pattern of a materials array: the quoted word
    Materials, white space, a colon, white space, and in the group an
    opening bracket, as few characters as possible and a closing
    bracket. *)
Definition materials_here (s : string) : option string :=
  match key_colon "Materials" s with
  | Some (String "[" r) => option_map (String "[") (until_bracket r)
  | _ => None
  end.

(** Group 1 of the pattern of a string field: the quoted [key], white
    space, a colon, white space, a double quote, in the group one
    character or more other than a double quote, and a double quote. *)
Definition field_here (key s : string) : option string :=
  match key_colon key s with
  | Some (String c r) =>
      if Ascii.eqb c Py.DQ then
        match until_quote r with
        | Some (String a g) => Some (String a g)
        | _ => None
        end
      else None
  | _ => None
  end.

Definition search_materials (line : string) : option string :=
  search materials_here line.

Definition search_field (key line : string) : option string :=
  search (field_here key) line.

End Re.

(* ===================================================================== *)
(** ** The operating system *)
(* ===================================================================== *)

(** What the programs ask the operating system.  Every query can fail
    ([None]): the directory or the file is missing, access is refused. *)
Record OS : Type := {
  (** [os.listdir(journal_dir)], when the directory exists *)
  listdir : option (list string);
  (** [os.path.join(journal_dir, f)] *)
  path_join : string -> string;
  (** [os.path.getmtime(path)] *)
  getmtime : string -> option Q;
  (** [os.path.getsize(path)] *)
  getsize : string -> option nat;
  (** the bytes of the file at [path], when it can be opened and read *)
  read_bytes : string -> option Py.bytes
}.

(** [l.sort(key=..., reverse=True)] on pairs of an item and its key: a
    stable sort, the greatest key first. *)
Fixpoint insert_desc {A : Type} (x : A * Q) (l : list (A * Q)) : list (A * Q) :=
  match l with
  | [] => [x]
  | y :: r =>
      if Qle_bool (snd x) (snd y) && negb (Qeq_bool (snd x) (snd y))
      then y :: insert_desc x r
      else x :: l
  end.

Fixpoint sort_desc {A : Type} (l : list (A * Q)) : list (A * Q) :=
  match l with
  | [] => []
  | x :: r => insert_desc x (sort_desc r)
  end.

Definition opt_eqb (a b : option string) : bool :=
  match a, b with
  | Some x, Some y => String.eqb x y
  | None, None => true
  | _, _ => false
  end.

(* ===================================================================== *)
(** ** app.py *)
(* ===================================================================== *)

Module App.
Import Json.

(** *** class SimpleTextToSpeech *)

(** The queue, and the texts the worker has handed to a speech engine so
    far. *)
Record tts : Type := {
  queue : list string;
  said : list string
}.

(** [speak]: [self._queue.append(text)], under the lock. *)
Definition speak (text : string) (q : list string) : list string :=
  q ++ [text].

(** One turn of the loop of [_worker]: under the lock, pop the head of
    the queue if there is one; then say it, if it is not the empty
    string. *)
Definition worker_turn (t : tts) : tts :=
  match queue t with
  | [] => t
  | text :: rest =>
      {| queue := rest;
         said := if String.eqb text "" then said t else said t ++ [text] |}
  end.

(** The producer and the worker take the lock in any order: a run of the
    system is a sequence of calls of [speak] and turns of the worker. *)
Inductive action : Type :=
| Speak (text : string)
| Turn.

Definition step (t : tts) (a : action) : tts :=
  match a with
  | Speak text => {| queue := speak text (queue t); said := said t |}
  | Turn => worker_turn t
  end.

Definition run (actions : list action) (t : tts) : tts :=
  fold_left step actions t.

Definition idle : tts := {| queue := []; said := [] |}.

(** *** class MiningData *)

Record row : Type := {
  timestamp : json;
  material : json;
  proportion : Z
}.

(** *** class EliteAssistant *)

Record state : Type := {
  current_file : option string;
  last_position : nat;
  last_line : option string;
  tts_queue : list string;      (* [self.tts._queue], as [speak] fills it *)
  df : list row                 (* [self.mining_data.df] *)
}.

Definition set_cursor (f : option string) (pos : nat) (st : state) : state :=
  {| current_file := f; last_position := pos; last_line := last_line st;
     tts_queue := tts_queue st; df := df st |}.

Definition set_read (pos : nat) (ll : option string) (st : state) : state :=
  {| current_file := current_file st; last_position := pos; last_line := ll;
     tts_queue := tts_queue st; df := df st |}.

(** [self.tts.speak(message)] *)
Definition tts_speak (message : string) (st : state) : state :=
  {| current_file := current_file st; last_position := last_position st;
     last_line := last_line st;
     tts_queue := speak message (tts_queue st); df := df st |}.

(** [self.mining_data.add_material(timestamp, name, percent)] *)
Definition add_material (ts name : json) (percent : Z) (st : state) : state :=
  {| current_file := current_file st; last_position := last_position st;
     last_line := last_line st; tts_queue := tts_queue st;
     df := df st ++ [{| timestamp := ts; material := name;
                        proportion := percent |}] |}.

Definition initial : state :=
  {| current_file := None; last_position := 0; last_line := None;
     tts_queue := []; df := [] |}.

(** **** find_latest_journal *)

Definition is_journal (f : string) : bool :=
  Py.startswith f "Journal." && Py.endswith f ".log".

(** The keys of the sort; a key that cannot be computed raises. *)
Fixpoint with_mtime (os : OS) (files : list string) : option (list (string * Q)) :=
  match files with
  | [] => Some []
  | f :: r =>
      match getmtime os (path_join os f), with_mtime os r with
      | Some t, Some l => Some ((f, t) :: l)
      | _, _ => None
      end
  end.

Definition find_latest_journal (os : OS) : option string :=
  match listdir os with
  | None => None
  | Some names =>
      match with_mtime os (filter is_journal names) with
      | Some keyed =>
          match sort_desc keyed with
          | [] => None
          | (f, _) :: _ => Some (path_join os f)
          end
      | None => None
      end
  end.

(** **** read_new_lines *)

(** The loop that filters duplicates and empty lines. *)
Fixpoint filter_lines (lines : list string) (last : option string)
  : list string * option string :=
  match lines with
  | [] => ([], last)
  | l :: r =>
      let line := Py.strip l in
      if String.eqb line "" || opt_eqb (Some line) last
      then filter_lines r last
      else let '(result, last') := filter_lines r (Some line) in
           (line :: result, last')
  end.

(** "Check if journal file has changed" *)
Definition switch_journal (os : OS) (latest : string) (st : state) : state :=
  if opt_eqb (Some latest) (current_file st) then st
  else set_cursor (Some latest)
         (match getsize os latest with Some n => n | None => 0 end) st.

Section Reader.

(** [bytes.decode('utf-8', errors='ignore')], done by the file object *)
Variable decode : Py.bytes -> string.

Definition read_new_lines (os : OS) (st : state) : list string * state :=
  match find_latest_journal os with
  | None => ([], st)
  | Some latest =>
      if String.eqb latest "" then ([], st)
      else
        let st1 := switch_journal os latest st in
        match read_bytes os latest with
        | None => ([], st1)
        | Some data =>
            let lines :=
              Py.readlines (decode (skipn (last_position st1) data)) in
            let pos := Nat.max (last_position st1) (List.length data) in
            let '(result, last) := filter_lines lines (last_line st1) in
            (result, set_read pos last st1)
        end
  end.

End Reader.

(** **** handle_mining and handle_message *)

Definition EVENT_PROSPECTED : string :=
  (Py.quoted "event" ++ ":" ++ Py.quoted "ProspectedAsteroid")%string.

Definition EVENT_RECEIVETEXT : string :=
  (Py.quoted "event" ++ ":" ++ Py.quoted "ReceiveText")%string.

Definition pirate_words : list string :=
  ["cargo"; "surrender"; "let me see"; "hand over"; "pirate"].

(** [int(float(proportion)) if isinstance(proportion, float) else
    int(proportion)]; [None] is the [TypeError], the [ValueError] or the
    [OverflowError] of [int]. *)
Definition to_percent (p : json) : option Z :=
  match p with
  | JFloat f => Py.int_of_float f
  | JInt z => Some z
  | JBool b => Some (if b then 1%Z else 0%Z)
  | JStr s => Py.int_of_str s
  | JNull | JArr _ | JObj _ => None
  end.

Section Handlers.

(** [json.loads] *)
Variable json_loads : string -> decoded.
(** [str(x)], as an f-string formats a field *)
Variable str_of : json -> string.
(** [datetime.now().isoformat()] *)
Variable now : string.
(** [self.mining_thresholds], the dict read from the mining
    configuration: material names with numbers *)
Variable mining_thresholds : list (string * Q).

(** [self.mining_thresholds.get(name)]: [None] is the [TypeError] of a
    key that cannot be hashed, [Some None] is no threshold.  The keys
    of the dict are strings. *)
Definition threshold_of (name : json) : option (option Q) :=
  match name with
  | JStr s => Some (Py.dict_get s mining_thresholds)
  | JArr _ | JObj _ => None
  | JNull | JBool _ | JInt _ | JFloat _ => Some None
  end.

(** [threshold is not None and percent >= threshold] *)
Definition alert (threshold : option Q) (percent : Z) : bool :=
  match threshold with
  | None => false
  | Some t => Qle_bool t (inject_Z percent)
  end.

(** The text of [name] in the alert; an alert is for a name that is a
    key of the thresholds, a string. *)
Definition name_text (name : json) : string :=
  match name with
  | JStr s => s
  | _ => str_of name
  end.

(** The body of the loop over the materials.  [None]: an exception
    leaves the loop; all of them are raised before the body changes
    anything. *)
Definition process_material (ts mat : json) (st : state) : option state :=
  match mat with
  | JObj ms =>
      let name := get "Name" (JStr "") ms in
      let prop := get "Proportion" (JInt 0) ms in
      if negb (truthy name) then Some st
      else
        match to_percent prop with
        | None => None
        | Some percent =>
            match threshold_of name with
            | None => None
            | Some threshold =>
                let message :=
                  (name_text name ++ " found at "
                   ++ Py.str_of_int percent ++ " percent")%string in
                let st1 :=
                  if alert threshold percent then tts_speak message st
                  else st in
                Some (add_material ts name percent st1)
            end
        end
  | _ => None
  end.

(** The loop; the flag is [False] when an exception ended it. *)
Fixpoint process_materials (ts : json) (mats : list json) (st : state)
  : state * bool :=
  match mats with
  | [] => (st, true)
  | mat :: r =>
      match process_material ts mat st with
      | Some st' => process_materials ts r st'
      | None => (st, false)
      end
  end.

Definition for_materials (ts materials : json) (st : state) : state * bool :=
  match iter materials with
  | Some mats => process_materials ts mats st
  | None => (st, false)
  end.

(** The [try] block of [handle_mining] after [json.loads] returned. *)
Definition handle_mining_json (data : json) (st : state) : state * bool :=
  match data with
  | JObj ms =>
      if negb (eq_str (get "event" JNull ms) "ProspectedAsteroid")
      then (st, false)
      else
        let materials := get "Materials" (JArr []) ms in
        let ts := get "timestamp" (JStr now) ms in
        if negb (truthy materials) then (st, false)
        else for_materials ts materials st
  | _ => (st, false)
  end.

(** The handler of [json.JSONDecodeError] in [handle_mining]. *)
Definition handle_mining_regex (line : string) (st : state) : state * bool :=
  match Re.search_materials line with
  | None => (st, false)
  | Some fragment =>
      match json_loads fragment with
      | Ok materials =>
          let ts :=
            match Re.search_field "timestamp" line with
            | Some t => JStr t
            | None => JStr now
            end in
          for_materials ts materials st
      | JSONDecodeError | OtherError => (st, false)
      end
  end.

Definition handle_mining (line : string) (st : state) : state * bool :=
  if negb (Py.contains EVENT_PROSPECTED line) then (st, false)
  else
    match json_loads line with
    | Ok data => handle_mining_json data st
    | JSONDecodeError => handle_mining_regex line st
    | OtherError => (st, false)
    end.

(** The [try] block of [handle_message] after [json.loads] returned. *)
Definition handle_message_json (data : json) (st : state) : state * bool :=
  match data with
  | JObj ms =>
      if negb (eq_str (get "event" JNull ms) "ReceiveText") then (st, false)
      else
        let sender := get "From" (JStr "Unknown") ms in
        let message := get "Message" (JStr "") ms in
        match get "Channel" (JStr "") ms with
        | JStr ch =>
            let channel := Py.lower ch in
            if String.eqb channel "squadron" then
              (tts_speak ("message from squadron member " ++ str_of sender
                          ++ " saying: " ++ str_of message)%string st, true)
            else if String.eqb channel "npc" then
              match message with
              | JStr m =>
                  let msg_lower := Py.lower m in
                  if existsb (fun w => Py.contains w msg_lower) pirate_words
                  then (tts_speak
                          ("NPC PIRATE MESSAGE: " ++ str_of message)%string st,
                        true)
                  else (tts_speak
                          ("NPC message: " ++ str_of message)%string st, true)
              | _ => (st, false)
              end
            else if String.eqb channel "player" then
              (tts_speak ("player message from " ++ str_of sender
                          ++ " saying: " ++ str_of message)%string st, true)
            else (st, false)
        | _ => (st, false)
        end
  | _ => (st, false)
  end.

(** The handler of [json.JSONDecodeError] in [handle_message]. *)
Definition handle_message_regex (line : string) (st : state) : state * bool :=
  match Re.search_field "From" line,
        Re.search_field "Message" line,
        Re.search_field "Channel" line with
  | Some sender, Some message, Some ch =>
      if String.eqb (Py.lower ch) "squadron" then
        (tts_speak ("message from squadron member " ++ sender
                    ++ " saying: " ++ message)%string st, true)
      else (st, false)
  | _, _, _ => (st, false)
  end.

Definition handle_message (line : string) (st : state) : state * bool :=
  if negb (Py.contains EVENT_RECEIVETEXT line) then (st, false)
  else
    match json_loads line with
    | Ok data => handle_message_json data st
    | JSONDecodeError => handle_message_regex line st
    | OtherError => (st, false)
    end.

(** The body of the loop of [run] over the lines:
    [handled = self.handle_mining(line) or self.handle_message(line)]. *)
Definition process_line (line : string) (st : state) : state :=
  let '(st1, handled) := handle_mining line st in
  if handled then st1 else fst (handle_message line st1).

Definition process_lines (lines : list string) (st : state) : state :=
  fold_left (fun s line => process_line line s) lines st.

(** One turn of the loop of [run]. *)
Definition poll (decode : Py.bytes -> string) (os : OS) (st : state) : state :=
  let '(lines, st1) := read_new_lines decode os st in
  process_lines lines st1.

End Handlers.

End App.

(* ===================================================================== *)
(** ** EDAT.py

    The methods are modelled as they are written.  (As the file stands,
    Python refuses to compile it: [load_config] calls [json.dump] with a
    positional argument after keyword arguments.) *)
(* ===================================================================== *)

Module Edat.
Import Json.

(** A row of [self.stats]. *)
Record stat : Type := {
  timestamp : json;
  material : string;
  proportion : json;
  motherlode : bool;
  content_type : json;
  remaining : json
}.

Record state : Type := {
  current_journal_path : option string;
  last_position : nat;
  last_line : string;
  stats : list stat;
  (** the texts of the speech threads started by [speak_text], in the
      order they were started *)
  announced : list string
}.

Definition set_journal (p : option string) (pos : nat) (ll : string)
                       (st : state) : state :=
  {| current_journal_path := p; last_position := pos; last_line := ll;
     stats := stats st; announced := announced st |}.

Definition set_position (pos : nat) (st : state) : state :=
  set_journal (current_journal_path st) pos (last_line st) st.

Definition set_last_line (ll : string) (st : state) : state :=
  set_journal (current_journal_path st) (last_position st) ll st.

Definition initial : state :=
  {| current_journal_path := None; last_position := 0; last_line := "";
     stats := []; announced := [] |}.

(** *** speak_text *)

(** [speak_text] starts a thread of its own for every text. *)
Definition speak_text (text : string) (st : state) : state :=
  {| current_journal_path := current_journal_path st;
     last_position := last_position st; last_line := last_line st;
     stats := stats st; announced := announced st ++ [text] |}.

(** The speech threads that have not yet called the engine, and the
    texts the engine was given so far. *)
Record speech : Type := {
  threads : list string;
  said : list string
}.

(** A run of the system is a sequence of steps: [speak_text] starts a
    thread, or the scheduler lets the [i]-th of the waiting threads call
    the engine. *)
Inductive action : Type :=
| Start (text : string)
| Say (i : nat).

Definition step (s : speech) (a : action) : speech :=
  match a with
  | Start text => {| threads := threads s ++ [text]; said := said s |}
  | Say i =>
      match nth_error (threads s) i with
      | Some text =>
          {| threads := firstn i (threads s) ++ skipn (S i) (threads s);
             said := said s ++ [text] |}
      | None => s
      end
  end.

Definition run (actions : list action) (s : speech) : speech :=
  fold_left step actions s.

Definition idle : speech := {| threads := []; said := [] |}.

(** *** record_asteroid *)

Definition record_asteroid (ts : json) (name : string) (prop : json)
           (is_motherlode : bool) (content rem : json) (st : state) : state :=
  {| current_journal_path := current_journal_path st;
     last_position := last_position st; last_line := last_line st;
     stats := stats st ++ [{| timestamp := ts; material := name;
                              proportion := prop;
                              motherlode := is_motherlode;
                              content_type := content;
                              remaining := rem |}];
     announced := announced st |}.

(** *** find_latest_journal *)

(** [journal_files] is the list the loop over the directory builds, the
    matching files with their modification times; [None] when building
    it raises. *)
Definition find_latest_journal (journal_files : option (list (string * Q)))
           (st : state) : option string * state :=
  match journal_files with
  | None => (None, st)
  | Some files =>
      match sort_desc files with
      | [] => (None, st)
      | (latest_file, _) :: _ =>
          let st' :=
            if opt_eqb (current_journal_path st) (Some latest_file) then st
            else set_journal (Some latest_file) 0 "" st in
          (current_journal_path st', st')
      end
  end.

(** *** read_new_journal_entries *)

(** "Process the data": the lines of the new content, joined with the
    partial line kept from the read before, less the partial line at
    the end. *)
Definition assemble (content : string) (st : state) : list string * state :=
  match Py.splitlines content with
  | [] => ([], st)
  | first :: rest =>
      let '(lines, st1) :=
        if negb (String.eqb (last_line st) "")
        then ((last_line st ++ first)%string :: rest, set_last_line "" st)
        else (first :: rest, st) in
      if negb (Py.endswith content (String Py.LF ""))
      then (removelast lines, set_last_line (last lines "") st1)
      else (lines, st1)
  end.

Section Reader.

Variable decode : Py.bytes -> string.
Variable json_loads : string -> decoded.

(** The function up to the complete lines it goes on to parse. *)
Definition read_lines (os : OS) (st : state) : list string * state :=
  match current_journal_path st with
  | None => ([], st)
  | Some path =>
      if String.eqb path "" then ([], st)
      else
        match read_bytes os path with
        | None => ([], st)
        | Some data =>
            let file_size := List.length data in
            if (file_size <=? last_position st)%nat then ([], st)
            else
              let new := skipn (last_position st) data in
              assemble (decode new) (set_position file_size st)
        end
  end.

(** "Parse the journal entries": a blank line is passed over, a line
    at which [json.loads] raises [json.JSONDecodeError] is logged and
    dropped.  [None]: [json.loads] raises another exception, which the
    loop does not handle. *)
Fixpoint parse_entries (lines : list string) : option (list json) :=
  match lines with
  | [] => Some []
  | line :: r =>
      if String.eqb (Py.strip line) "" then parse_entries r
      else
        match json_loads line with
        | Ok entry => option_map (cons entry) (parse_entries r)
        | JSONDecodeError => parse_entries r
        | OtherError => None
        end
  end.

(** An exception that leaves the loop is handled at the end of the
    function, which then returns the empty list; the offset and the
    partial line are as the read has set them. *)
Definition read_new_journal_entries (os : OS) (st : state)
  : list json * state :=
  let '(lines, st') := read_lines os st in
  match parse_entries lines with
  | Some entries => (entries, st')
  | None => ([], st')
  end.

End Reader.

(** *** process_asteroid *)

Section Tracker.

(** [datetime.now().isoformat()] *)
Variable now : string.
(** [self.config['target_materials']]: material names with numbers *)
Variable target_materials : list (string * Q).

(** [round(proportion)] of a number; [None] is the [OverflowError] of
    an infinity and the [ValueError] of a NaN. *)
Definition rounded (x : json) : option Z :=
  match x with
  | JFloat f => Py.round f
  | JInt z => Some z
  | JBool b => Some (if b then 1%Z else 0%Z)
  | _ => None
  end.

(** [material_name in targets and proportion >= targets[material_name]];
    the outer [None] is a [TypeError], [Some (Some name)] is a material
    that qualifies. *)
Definition valuable (material_name prop : json) : option (option string) :=
  match material_name with
  | JStr s =>
      match Py.dict_get s target_materials with
      | None => Some None
      | Some t =>
          match number prop with
          | Some x => Some (if Py.le (Py.Num t) x then Some s else None)
          | None => None
          end
      end
  | JArr _ | JObj _ => None
  | JNull | JBool _ | JInt _ | JFloat _ => Some None
  end.

(** The loop over the materials: it ends at the first valuable
    material.  The result is [None] when an exception leaves the loop;
    the state is then the state at the exception: an exception of
    [round] is raised after the row was recorded. *)
Fixpoint scan_materials (ms : list (string * json)) (rem : json)
         (materials : list json) (st : state) : state * option bool :=
  match materials with
  | [] => (st, Some false)
  | JObj mat :: r =>
      let material_name := get "Name" (JStr "") mat in
      let prop := get "Proportion" (JFloat (S754_zero false)) mat in
      match valuable material_name prop with
      | None => (st, None)
      | Some None => scan_materials ms rem r st
      | Some (Some name) =>
          let st1 :=
            record_asteroid
              (get "timestamp" (JStr now) ms) name prop
              (match lookup "MotherlodeMaterial" ms with
               | Some m => eq_str m name
               | None => false
               end)
              (get "Content_Localised" (JStr "Unknown") ms) rem st in
          match rounded prop with
          | None => (st1, None)
          | Some rounded_proportion =>
              (speak_text
                 (name ++ " asteroid found with "
                  ++ Py.str_of_int rounded_proportion
                  ++ " percent content")%string st1,
               Some true)
          end
      end
  | _ :: _ => (st, None)
  end.

(** The value returned is [None] at a plain [return], and [False] when
    an exception was handled. *)
Definition process_asteroid (entry : json) (st : state) : state * option bool :=
  match entry with
  | JObj ms =>
      if negb (eq_str (get "event" JNull ms) "ProspectedAsteroid")
      then (st, None)
      else
        let rem := get "Remaining" (JInt 0) ms in
        match number rem with
        | None => (st, Some false)
        | Some r =>
            if Py.lt r (Py.Num 100) then (st, None)
            else
              match iter (get "Materials" (JArr []) ms) with
              | None => (st, Some false)
              | Some materials =>
                  match scan_materials ms rem materials st with
                  | (st', Some found) => (st', Some found)
                  | (st', None) => (st', Some false)
                  end
              end
        end
  | _ => (st, Some false)
  end.

(** The loop of [monitor_for_valuable_asteroids] over the entries.  An
    entry that is no dict raises out of it: the flag is then [false]. *)
Fixpoint process_entries (entries : list json) (st : state) : state * bool :=
  match entries with
  | [] => (st, true)
  | JObj ms :: r =>
      if eq_str (get "event" JNull ms) "ProspectedAsteroid"
      then process_entries r (fst (process_asteroid (JObj ms) st))
      else process_entries r st
  | _ :: _ => (st, false)
  end.

(** One turn of the loop of [monitor_for_valuable_asteroids]. *)
Definition monitor_turn (decode : Py.bytes -> string)
           (json_loads : string -> decoded)
           (journal_files : option (list (string * Q))) (os : OS)
           (st : state) : state * bool :=
  match find_latest_journal journal_files st with
  | (None, st1) => (st1, true)
  | (Some p, st1) =>
      if String.eqb p "" then (st1, true)
      else
        let '(entries, st2) := read_new_journal_entries decode json_loads os st1 in
        process_entries entries st2
  end.

End Tracker.

End Edat.

(* ===================================================================== *)
(** ** Notions used to state the properties *)
(* ===================================================================== *)

(** *** Texts and lines *)

Fixpoint all_chars (p : ascii -> bool) (s : string) : bool :=
  match s with
  | "" => true
  | String c r => p c && all_chars p r
  end.

(** No character of [s] ends a line. *)
Definition no_break (s : string) : bool :=
  all_chars (fun c => negb (Py.is_linebreak c)) s.

(** The only character of [s] that ends a line is the line feed. *)
Definition lf_only (s : string) : bool :=
  all_chars (fun c => negb (Py.is_linebreak c) || Ascii.eqb c Py.LF) s.

(** Every line end of [s] is a line feed, alone or after a carriage
    return: [s] has no carriage return that a line feed does not follow,
    and none of the other characters at which [str.splitlines] ends a
    line. *)
Fixpoint lf_or_crlf (s : string) : bool :=
  match s with
  | "" => true
  | String c r =>
      (if Ascii.eqb c Py.CR
       then match r with
            | String c2 _ => Ascii.eqb c2 Py.LF
            | "" => false
            end
       else negb (Py.is_linebreak c) || Ascii.eqb c Py.LF)
      && lf_or_crlf r
  end.

(** The same for a text cut anywhere: its last character can be a
    carriage return whose line feed is still to come. *)
Fixpoint lf_or_crlf_cut (s : string) : bool :=
  match s with
  | "" => true
  | String c r =>
      (if Ascii.eqb c Py.CR
       then match r with
            | String c2 _ => Ascii.eqb c2 Py.LF
            | "" => true
            end
       else negb (Py.is_linebreak c) || Ascii.eqb c Py.LF)
      && lf_or_crlf_cut r
  end.

(** [s] without its carriage returns. *)
Fixpoint without_cr (s : string) : string :=
  match s with
  | "" => ""
  | String c r =>
      if Ascii.eqb c Py.CR then without_cr r else String c (without_cr r)
  end.

(** The pieces of [s] between its line feeds. *)
Fixpoint split_lf (s : string) : list string :=
  match s with
  | "" => [""]
  | String c r =>
      if Ascii.eqb c Py.LF then "" :: split_lf r
      else match split_lf r with
           | [] => [String c ""]
           | l :: ls => String c l :: ls
           end
  end.

(** The lines with their terminators put back. *)
Fixpoint terminate (lines : list string) : string :=
  match lines with
  | [] => ""
  | l :: r => (l ++ String Py.LF (terminate r))%string
  end.

Fixpoint concat_all (l : list string) : string :=
  match l with
  | [] => ""
  | x :: r => (x ++ concat_all r)%string
  end.

(** No two neighbours of the list are the same line. *)
Fixpoint no_repeat (l : list string) : bool :=
  match l with
  | [] => true
  | x :: r =>
      match r with
      | [] => true
      | y :: _ => negb (String.eqb x y) && no_repeat r
      end
  end.

Definition nonempty (s : string) : bool := negb (String.eqb s "").

(** *** A journal that grows *)

(** A directory with one journal, [name], that holds [data]. *)
Definition journal_os (name : string) (data : Py.bytes) : OS :=
  {| listdir := Some [name];
     path_join := fun f => f;
     getmtime := fun _ => Some 0%Q;
     getsize := fun p =>
       if String.eqb p name then Some (List.length data) else None;
     read_bytes := fun p => if String.eqb p name then Some data else None |}.

(** The journal holds [data]; the chunks are appended to it one after the
    other, and the reader of EDAT.py is called once after each: the lines
    of all the calls, and the state after the last. *)
Fixpoint edat_tail (decode : Py.bytes -> string) (name : string)
         (data : Py.bytes) (chunks : list Py.bytes) (st : Edat.state)
  : list string * Edat.state :=
  match chunks with
  | [] => ([], st)
  | c :: r =>
      let '(l1, st1) := Edat.read_lines decode (journal_os name (data ++ c)) st in
      let '(l2, st2) := edat_tail decode name (data ++ c) r st1 in
      (l1 ++ l2, st2)
  end.

(** The same for the reader of app.py. *)
Fixpoint app_tail (decode : Py.bytes -> string) (name : string)
         (data : Py.bytes) (chunks : list Py.bytes) (st : App.state)
  : list string * App.state :=
  match chunks with
  | [] => ([], st)
  | c :: r =>
      let '(l1, st1) := App.read_new_lines decode (journal_os name (data ++ c)) st in
      let '(l2, st2) := app_tail decode name (data ++ c) r st1 in
      (l1 ++ l2, st2)
  end.

(** *** Materials *)

Section Materials.
Import Json.

Variable targets : list (string * Q).

Definition name_of (mat : json) : json :=
  match mat with
  | JObj ms => get "Name" (JStr "") ms
  | _ => JNull
  end.



(** A list or a dict cannot be looked up in a dict. *)
Definition unhashable (name : json) : bool :=
  match name with
  | JArr _ | JObj _ => true
  | _ => false
  end.

(** **** The materials of app.py *)

(** The percentage of a proportion, [int(proportion)]: an int as it is,
    a float that is a number cut to its integer part, the integer that a
    string spells; there is none for a float that is no number, for a
    string that spells no integer, for [None], a list and a dict. *)
Definition percentage (p : json) : option Z :=
  match p with
  | JInt z => Some z
  | JBool b => Some (if b then 1%Z else 0%Z)
  | JFloat f =>
      match Py.float_value f with
      | Py.Num x => Some (Py.truncate x)
      | _ => None
      end
  | JStr s => Py.int_of_str s
  | JNull | JArr _ | JObj _ => None
  end.

(** The material has a name: app.py does not pass it over. *)
Definition app_named (mat : json) : bool := truthy (name_of mat).

Definition app_percent (mat : json) : option Z :=
  match mat with
  | JObj ms => percentage (get "Proportion" (JInt 0) ms)
  | _ => None
  end.

(** An exception ends the examination of the material by app.py: the
    material is no dict, or it has a name and its proportion has no
    percentage, or its name cannot be looked up. *)
Definition app_raises (mat : json) : bool :=
  match mat with
  | JObj _ =>
      app_named mat
      && (match app_percent mat with
          | Some _ => false
          | None => true
          end
          || unhashable (name_of mat))
  | _ => true
  end.

(** The materials that app.py examines: those before the first at which
    an exception is raised. *)
Fixpoint examined (mats : list json) : list json :=
  match mats with
  | [] => []
  | m :: r => if app_raises m then [] else m :: examined r
  end.




(** **** The materials of EDAT.py *)














End Materials.

(** A formatter of f-string fields that is exact on strings, the only
    values the examples format. *)
Definition str_of_str (v : Json.json) : string :=
  match v with
  | Json.JStr s => s
  | _ => ""
  end.

(** *** Lines, fragments and runs *)

(** The text a list of lines comes from: every line is terminated, but the
    last one when [closed] is [false]. *)
Definition glue (ls : list string) (closed : bool) : string :=
  if closed then terminate ls
  else (terminate (removelast ls) ++ last ls "")%string.

(** The fields that [assemble] leaves alone. *)
Definition same_but_line (st st' : Edat.state) : Prop :=
  Edat.current_journal_path st' = Edat.current_journal_path st
  /\ Edat.last_position st' = Edat.last_position st
  /\ Edat.stats st' = Edat.stats st
  /\ Edat.announced st' = Edat.announced st.

(** EDAT.py tracks the journal [name] and has read nothing of it. *)
Definition tracking (name : string) : Edat.state :=
  Edat.set_journal (Some name) 0 "" Edat.initial.

(** The line remembered after [out] was returned. *)
Definition remembered (last : option string) (out : list string) : option string :=
  fold_left (fun _ l => Some l) out last.

Definition prev (last : option string) : list string :=
  match last with
  | Some l => [l]
  | None => []
  end.

(** The texts given to [speak], in the order of the calls. *)
Fixpoint enqueued (actions : list App.action) : list string :=
  match actions with
  | [] => []
  | App.Speak text :: r => text :: enqueued r
  | App.Turn :: r => enqueued r
  end.

(** *** The effects of a prospect result *)

(** app.py: the state after the texts [msgs] were queued and the rows
    [rows] added. *)
Definition app_after (msgs : list string) (rows : list App.row)
           (st : App.state) : App.state :=
  {| App.current_file := App.current_file st;
     App.last_position := App.last_position st;
     App.last_line := App.last_line st;
     App.tts_queue := App.tts_queue st ++ msgs;
     App.df := App.df st ++ rows |}.

(** EDAT.py: the state after speech threads were started for the texts
    [msgs] and the rows [rows] recorded. *)
Definition edat_after (msgs : list string) (rows : list Edat.stat)
           (st : Edat.state) : Edat.state :=
  {| Edat.current_journal_path := Edat.current_journal_path st;
     Edat.last_position := Edat.last_position st;
     Edat.last_line := Edat.last_line st;
     Edat.stats := Edat.stats st ++ rows;
     Edat.announced := Edat.announced st ++ msgs |}.

(** The entries of two lists of lines, when no exception leaves the
    loop. *)
Definition both (a b : option (list Json.json)) : option (list Json.json) :=
  match a, b with
  | Some x, Some y => Some (x ++ y)
  | _, _ => None
  end.

(** *** Journal lines of the examples *)

(** A prospect result with three materials, the first two of them above
    the default targets of EDAT.py. *)
Definition prospect_line : string :=
  Py.q "{'timestamp':'T1','event':'ProspectedAsteroid','Materials':[{'Name':'Platinum','Proportion':55.0},{'Name':'Gold','Proportion':60.5},{'Name':'Bromellite','Proportion':10.25}],'Content_Localised':'High','Remaining':100.0}".

Definition prospect_materials : list Json.json :=
  [Json.JObj [("Name", Json.JStr "Platinum"); ("Proportion", Json.JFloat (Py.float_of_decimal false 550 (-1)))];
   Json.JObj [("Name", Json.JStr "Gold"); ("Proportion", Json.JFloat (Py.float_of_decimal false 605 (-1)))];
   Json.JObj [("Name", Json.JStr "Bromellite");
              ("Proportion", Json.JFloat (Py.float_of_decimal false 1025 (-2)))]].

Definition prospect_members : list (string * Json.json) :=
  [("timestamp", Json.JStr "T1");
   ("event", Json.JStr "ProspectedAsteroid");
   ("Materials", Json.JArr prospect_materials);
   ("Content_Localised", Json.JStr "High");
   ("Remaining", Json.JFloat (Py.float_of_decimal false 1000 (-1)))].

(** The same prospect result cut before its last member, as a read can see
    it: it does not decode. *)
Definition prospect_line_cut : string :=
  Py.q "{'timestamp':'T1','event':'ProspectedAsteroid','Materials':[{'Name':'Platinum','Proportion':55.0},{'Name':'Gold','Proportion':60.5},{'Name':'Bromellite','Proportion':10.25}],'Content_Localised':'High','Rem".

(** The default targets of EDAT.py. *)
Definition default_targets : list (string * Q) :=
  [("Platinum", 50%Q); ("Gold", 50%Q); ("Painite", 50%Q)].




(** A prospect result whose first material has no proportion that can be
    read, and whose second is platinum at 55. *)
Definition null_first_line : string :=
  Py.q "{'timestamp':'T1','event':'ProspectedAsteroid','Materials':[{'Name':'Gold','Proportion':null},{'Name':'Platinum','Proportion':55.0}],'Remaining':100.0}".

Definition null_first_materials : list Json.json :=
  [Json.JObj [("Name", Json.JStr "Gold"); ("Proportion", Json.JNull)];
   Json.JObj [("Name", Json.JStr "Platinum");
              ("Proportion", Json.JFloat (Py.float_of_decimal false 550 (-1)))]].

(** A prospect result with platinum at a proportion past the greatest
    float, which [json.loads] reads as an infinity. *)
Definition infinite_line : string :=
  Py.q "{'timestamp':'T1','event':'ProspectedAsteroid','Materials':[{'Name':'Platinum','Proportion':1e999}],'Remaining':100.0}".

Definition infinite_fields : list (string * Json.json) :=
  [("Name", Json.JStr "Platinum");
   ("Proportion", Json.JFloat (S754_infinity false))].


(** A message of a character of the game, whole and cut before its
    closing brace. *)
Definition npc_line : string :=
  Py.q "{'timestamp':'T1','event':'ReceiveText','From':'Bob','Message':'hand over your cargo','Channel':'npc'}".

Definition npc_line_cut : string :=
  Py.q "{'timestamp':'T1','event':'ReceiveText','From':'Bob','Message':'hand over your cargo','Channel':'npc'".

Definition player_line_cut : string :=
  Py.q "{'timestamp':'T1','event':'ReceiveText','From':'Bob','Message':'o7','Channel':'player'".

Definition squadron_line_cut : string :=
  Py.q "{'timestamp':'T1','event':'ReceiveText','From':'Bob','Message':'o7','Channel':'squadron'".

(** *** Journals of the examples *)

Definition journal_name : string := "Journal.1.log".

(** The text of two lines, each ended by a carriage return and a line
    feed, cut inside a line and between a carriage return and its line
    feed. *)
Definition crlf_chunks : list Py.bytes :=
  map list_byte_of_string
      [Py.eol "{1"; Py.eol "}^"; Py.eol "${2}^"; Py.eol "$"].

(** The characters at which [str.splitlines] ends a line, but the line
    feed: VT, FF, CR, FS, GS, RS and NEL. *)
Definition other_line_ends : list ascii :=
  map ascii_of_nat [11; 12; 13; 28; 29; 30; 133].

(** A journal that holds one line when it is found. *)
Definition old_line : string := Py.q "{'event':'FSDJump','x':1}".

Definition old_journal : Py.bytes :=
  list_byte_of_string (Py.eol (old_line ++ "$")).

(** A prospect result of one line, as the bytes of the journal. *)
Definition result_line : string :=
  Py.q "{'event':'ProspectedAsteroid','Materials':[]}".

Definition result_bytes : Py.bytes :=
  list_byte_of_string (Py.eol (result_line ++ "$")).

(** app.py after a first read of the journal, then empty. *)
Definition app_started : App.state :=
  snd (App.read_new_lines Py.decode_ascii (journal_os journal_name [])
         App.initial).

(** A prospect result and a message that decode, written with a space
    after the colon of the event. *)
Definition spaced_prospect_line : string :=
  Py.q "{'timestamp':'T1', 'event': 'ProspectedAsteroid', 'Materials': [{'Name':'Platinum','Proportion':55.0}], 'Remaining': 100.0}".

Definition spaced_message_line : string :=
  Py.q "{'event': 'ReceiveText', 'From':'Bob', 'Message':'o7', 'Channel':'squadron'}".




(* ===================================================================== *)
(** ** app.py: load_config *)
(* ===================================================================== *)

Module Config.
Import Json.

Definition CONFIG_PATH : string := "config.json".
Definition MINING_CONFIG_PATH : string := "mining.json".

(** The files of the working directory: the text of the file at a path,
    when there is one, and whether it can be opened for reading and for
    writing. *)
Record files : Type := {
  file : string -> option string;
  can_read : string -> bool;
  can_write : string -> bool
}.

(** [open(path, "w")] and the text written. *)
Definition write (path text : string) (f : files) : files :=
  {| file := fun p => if String.eqb p path then Some text else file f p;
     can_read := can_read f;
     can_write := can_write f |}.

Section LoadConfig.

(** [json.load] on the text of a file; [None]: it raises *)
Variable json_load : string -> option json.
(** the text [json.dump(defaults, f, indent=2)] writes *)
Variable json_dump : json -> string.

(** [defaults] is [None] when the argument is left out. *)
Definition load_config (path : string) (defaults : option json)
           (f : files) : json * files :=
  let defaults :=
    match defaults with
    | Some d => d
    | None => JObj []
    end in
  match file f path with
  | Some text =>
      if can_read f path then
        match json_load text with
        | Some config => (config, f)
        | None => (defaults, f)
        end
      else (defaults, f)
  | None =>
      if String.eqb path CONFIG_PATH then
        if can_write f path
        then (defaults, write path (json_dump defaults) f)
        else (defaults, f)
      else (defaults, f)
  end.

End LoadConfig.

End Config.

(** *** A directory with several files *)

(** Three journals and another file; the second and the third journal
    have the same modification time. *)
Definition three_journals : OS :=
  {| listdir :=
       Some ["Journal.1.log"; "notes.txt"; "Journal.2.log"; "Journal.3.log"];
     path_join := fun f => ("dir/" ++ f)%string;
     getmtime := fun p =>
       if String.eqb p "dir/Journal.1.log" then Some 5%Q
       else if String.eqb p "dir/Journal.2.log" then Some 7%Q
       else if String.eqb p "dir/Journal.3.log" then Some 7%Q
       else if String.eqb p "dir/notes.txt" then Some 9%Q
       else None;
     getsize := fun _ => Some 0;
     read_bytes := fun _ => Some [] |}.

(** *** More journal lines *)

(** A prospect result without its remaining content. *)
Definition no_remaining_line : string :=
  Py.q "{'event':'ProspectedAsteroid','Materials':[{'Name':'Platinum','Proportion':99.5}]}".

Definition no_remaining_members : list (string * Json.json) :=
  [("event", Json.JStr "ProspectedAsteroid");
   ("Materials",
    Json.JArr [Json.JObj [("Name", Json.JStr "Platinum");
                          ("Proportion", Json.JFloat (Py.float_of_decimal false 995 (-1)))]])].

(** An integer literal of one digit more than [json.loads] converts, and
    a journal in which it stands between two lines. *)
Fixpoint digits_1 (n : nat) : string :=
  match n with
  | O => ""
  | S k => String "1" (digits_1 k)
  end.

Definition long_integer : string := digits_1 (S Py.max_str_digits).

Definition long_integer_journal : Py.bytes :=
  list_byte_of_string (Py.eol "1$" ++ long_integer ++ Py.eol "$2$").

(** *** The speech threads of EDAT.py *)

(** The texts given to [speak_text], in the order of the calls. *)
Fixpoint started (actions : list Edat.action) : list string :=
  match actions with
  | [] => []
  | Edat.Start text :: r => text :: started r
  | Edat.Say _ :: r => started r
  end.

(** *** Characters of a text *)

(** The character [c] is not in [s]. *)
Definition lacks (c : ascii) (s : string) : bool :=
  all_chars (fun x => negb (Ascii.eqb x c)) s.

(** *** Files of the examples *)

(** A working directory without any file, where files can be made. *)
Definition no_files : Config.files :=
  {| Config.file := fun _ => None;
     Config.can_read := fun _ => true;
     Config.can_write := fun _ => true |}.

(** The text [json.dump] writes for the empty dict, the value the example
    writes. *)
Definition dump_empty_dict (v : Json.json) : string := "{}".

(** [json.load] on the text of a file, with the decoder of the examples;
    [None] when it raises. *)
Definition load_text (text : string) : option Json.json :=
  match Json.loads text with
  | Json.Ok v => Some v
  | Json.JSONDecodeError | Json.OtherError => None
  end.

(* ===================================================================== *)
(** * Properties *)
(* ===================================================================== *)

(* ===================================================================== *)
(** ** Strings *)
(* ===================================================================== *)

Lemma append_nil_r (s : string) : (s ++ "")%string = s.
Proof. induction s as [|c r IH]; simpl; [reflexivity | now rewrite IH]. Qed.

Lemma append_assoc (a b c : string) :
  ((a ++ b) ++ c)%string = (a ++ (b ++ c))%string.
Proof. induction a as [|x r IH]; simpl; [reflexivity | now rewrite IH]. Qed.

Lemma append_eq_nil (a b : string) : (a ++ b)%string = "" -> a = "" /\ b = "".
Proof. destruct a; simpl; [auto | discriminate]. Qed.

Lemma all_chars_app (p : ascii -> bool) (a b : string) :
  all_chars p (a ++ b) = all_chars p a && all_chars p b.
Proof.
  induction a as [|c r IH]; simpl; [reflexivity|].
  now rewrite IH, andb_assoc.
Qed.

Lemma LF_is_linebreak : Py.is_linebreak Py.LF = true.
Proof. reflexivity. Qed.

Lemma CR_is_linebreak : Py.is_linebreak Py.CR = true.
Proof. reflexivity. Qed.

Lemma not_linebreak_not_LF (c : ascii) :
  Py.is_linebreak c = false -> Ascii.eqb c Py.LF = false.
Proof.
  intros H. destruct (Ascii.eqb_spec c Py.LF) as [->|]; [|reflexivity].
  now rewrite LF_is_linebreak in H.
Qed.

Lemma not_linebreak_not_CR (c : ascii) :
  Py.is_linebreak c = false -> Ascii.eqb c Py.CR = false.
Proof.
  intros H. destruct (Ascii.eqb_spec c Py.CR) as [->|]; [|reflexivity].
  now rewrite CR_is_linebreak in H.
Qed.

(** *** [endswith] a line feed *)

Lemma endswith_cons_LF (c : ascii) (r : string) :
  Py.endswith (String c r) (String Py.LF "")
  = (Ascii.eqb c Py.LF && String.eqb r "") || Py.endswith r (String Py.LF "").
Proof. reflexivity. Qed.

Lemma endswith_no_break (p : string) :
  no_break p = true -> Py.endswith p (String Py.LF "") = false.
Proof.
  induction p as [|c r IH]; [reflexivity|].
  unfold no_break. intros H. simpl in H. apply andb_prop in H as [Hc Hr].
  rewrite endswith_cons_LF, (IH Hr).
  apply negb_true_iff in Hc. now rewrite (not_linebreak_not_LF _ Hc).
Qed.

Lemma endswith_app_LF (x p : string) :
  p <> "" ->
  Py.endswith (x ++ p) (String Py.LF "") = Py.endswith p (String Py.LF "").
Proof.
  intros Hp. induction x as [|c r IH]; [reflexivity|].
  simpl append. rewrite endswith_cons_LF, IH.
  destruct (String.eqb_spec (r ++ p) "") as [E|_].
  - apply append_eq_nil in E as [_ E]. contradiction.
  - now rewrite andb_false_r.
Qed.

(** *** [splitlines] *)

Lemma splitlines_LF (r : string) :
  Py.splitlines (String Py.LF r) = "" :: Py.splitlines r.
Proof. destruct r; reflexivity. Qed.

Lemma splitlines_CRLF (r : string) :
  Py.splitlines (String Py.CR (String Py.LF r)) = "" :: Py.splitlines r.
Proof. reflexivity. Qed.

Lemma splitlines_char (c : ascii) (r : string) :
  Py.is_linebreak c = false ->
  Py.splitlines (String c r) = Py.cons_first c (Py.splitlines r).
Proof. intros H. simpl. now rewrite H. Qed.

Lemma splitlines_nil (s : string) : Py.splitlines s = [] -> s = "".
Proof.
  destruct s as [|c r]; [reflexivity|]. simpl.
  destruct (Py.is_linebreak c).
  - destruct r as [|c2 r2]; [discriminate|].
    destruct (Ascii.eqb c Py.CR && Ascii.eqb c2 Py.LF); discriminate.
  - destruct (Py.splitlines r); discriminate.
Qed.

(** No line of [splitlines] holds a character that ends a line. *)
Lemma splitlines_no_break (s : string) :
  Forall (fun l => no_break l = true) (Py.splitlines s).
Proof.
  assert (G : forall n s, String.length s <= n ->
                          Forall (fun l => no_break l = true) (Py.splitlines s)).
  { clear s. induction n as [|n IH]; intros s Hn.
    - destruct s; [constructor | simpl in Hn; lia].
    - destruct s as [|c r]; [constructor|]. simpl in Hn.
      cbn [Py.splitlines]. destruct (Py.is_linebreak c) eqn:Hc.
      + destruct r as [|c2 r2]; [repeat constructor|].
        destruct (Ascii.eqb c Py.CR && Ascii.eqb c2 Py.LF);
          (constructor; [reflexivity|]); apply IH; simpl in *; lia.
      + assert (H : Forall (fun l => no_break l = true) (Py.splitlines r))
          by (apply IH; lia).
        destruct (Py.splitlines r) as [|hd tl]; simpl.
        * constructor; [|constructor]. unfold no_break; simpl. now rewrite Hc.
        * inversion H as [|? ? Hhd Htl]; subst. constructor; [|exact Htl].
          unfold no_break in *; simpl. now rewrite Hc, Hhd. }
  exact (G (String.length s) s (le_n _)).
Qed.

Lemma last_no_break (ls : list string) :
  Forall (fun l => no_break l = true) ls -> no_break (last ls "") = true.
Proof.
  induction 1 as [|x l Hx Hl IH]; [reflexivity|].
  destruct l; [exact Hx | exact IH].
Qed.

Lemma removelast_no_break (ls : list string) :
  Forall (fun l => no_break l = true) ls ->
  Forall (fun l => no_break l = true) (removelast ls).
Proof.
  induction 1 as [|x l Hx Hl IH]; [constructor|].
  destruct l; [constructor|]. now constructor.
Qed.

(** *** Lines put together again *)

Lemma glue_prefix (p hd : string) (tl : list string) (closed : bool) :
  glue ((p ++ hd)%string :: tl) closed = (p ++ glue (hd :: tl) closed)%string.
Proof.
  unfold glue. destruct closed.
  - simpl. now rewrite append_assoc.
  - destruct tl as [|x tl'].
    + reflexivity.
    + cbn [removelast last terminate]. now rewrite !append_assoc.
Qed.

Lemma glue_cons_first (c : ascii) (ls : list string) (closed : bool) :
  ls <> [] ->
  glue (Py.cons_first c ls) closed = String c (glue ls closed).
Proof.
  destruct ls as [|hd tl]; [contradiction|]. intros _.
  exact (glue_prefix (String c "") hd tl closed).
Qed.

Lemma glue_empty_first (ls : list string) (closed : bool) :
  ls <> [] ->
  glue ("" :: ls) closed = String Py.LF (glue ls closed).
Proof.
  destruct ls as [|hd tl]; [contradiction|]. intros _.
  unfold glue. destruct closed; reflexivity.
Qed.

Lemma lf_or_crlf_cut_cons (c : ascii) (r : string) :
  lf_or_crlf_cut (String c r) = true ->
  (c = Py.LF
   \/ Py.is_linebreak c = false
   \/ (c = Py.CR /\ (r = "" \/ exists r2, r = String Py.LF r2)))
  /\ lf_or_crlf_cut r = true.
Proof.
  cbn [lf_or_crlf_cut]. intros H. apply andb_prop in H as [Hc Hr].
  split; [|exact Hr].
  destruct (Ascii.eqb_spec c Py.CR) as [->|Hn].
  - right. right. split; [reflexivity|].
    destruct r as [|c2 r2]; [now left|]. right. exists r2.
    apply Ascii.eqb_eq in Hc. now subst.
  - apply orb_prop in Hc as [Hc|Hc].
    + right. left. now apply negb_true_iff.
    + left. now apply Ascii.eqb_eq.
Qed.

(** The lines of a text whose line ends are line feeds, alone or after a
    carriage return, are the text without its carriage returns. *)
Lemma split_glue (s : string) :
  lf_or_crlf_cut s = true ->
  glue (Py.splitlines s) (Py.endswith s (String Py.LF "")) = without_cr s.
Proof.
  induction s as [|c r IH]; [reflexivity|].
  intros H. pose proof (lf_or_crlf_cut_cons _ _ H) as [Hc Hr].
  specialize (IH Hr). rewrite endswith_cons_LF.
  destruct Hc as [->|[Hc|[-> Hc]]].
  - (* a line feed *)
    cbn [without_cr]. change (Ascii.eqb Py.LF Py.CR) with false. cbv iota.
    destruct r as [|c' r']; [reflexivity|].
    assert (Hne : Py.splitlines (String c' r') <> []).
    { intros E. now apply splitlines_nil in E. }
    replace (String.eqb (String c' r') "") with false by reflexivity.
    rewrite andb_false_r, orb_false_l.
    rewrite splitlines_LF, (glue_empty_first _ _ Hne). now rewrite IH.
  - (* no line end *)
    cbn [without_cr]. rewrite (not_linebreak_not_CR _ Hc).
    rewrite (splitlines_char _ _ Hc), (not_linebreak_not_LF _ Hc).
    rewrite andb_false_l, orb_false_l.
    destruct r as [|c' r']; [reflexivity|].
    assert (Hne : Py.splitlines (String c' r') <> []).
    { intros E. now apply splitlines_nil in E. }
    rewrite (glue_cons_first _ _ _ Hne). now rewrite IH.
  - (* a carriage return *)
    cbn [without_cr]. change (Ascii.eqb Py.CR Py.CR) with true. cbv iota.
    change (Ascii.eqb Py.CR Py.LF) with false.
    rewrite andb_false_l, orb_false_l.
    destruct Hc as [->|(r2 & ->)]; [reflexivity|].
    rewrite splitlines_CRLF. rewrite splitlines_LF in IH. exact IH.
Qed.

Lemma lf_or_crlf_cut_of (s : string) :
  lf_or_crlf s = true -> lf_or_crlf_cut s = true.
Proof.
  induction s as [|c r IH]; [reflexivity|]. cbn [lf_or_crlf lf_or_crlf_cut].
  intros H. apply andb_prop in H as [Hc Hr]. rewrite (IH Hr), andb_true_r.
  destruct (Ascii.eqb c Py.CR); [|exact Hc].
  destruct r; [discriminate | exact Hc].
Qed.

(** A text cut in two. *)
Lemma lf_or_crlf_app (a b : string) :
  lf_or_crlf (a ++ b) = true ->
  lf_or_crlf_cut a = true /\ lf_or_crlf b = true.
Proof.
  induction a as [|c r IH]; [now split|].
  simpl append. cbn [lf_or_crlf lf_or_crlf_cut].
  intros H. apply andb_prop in H as [Hc Hr].
  destruct (IH Hr) as [H1 H2]. split; [|exact H2].
  rewrite H1, andb_true_r.
  destruct (Ascii.eqb c Py.CR); [|exact Hc].
  destruct r as [|c2 r2]; [reflexivity | exact Hc].
Qed.

Lemma lf_only_lf_or_crlf (s : string) :
  lf_only s = true -> lf_or_crlf s = true /\ without_cr s = s.
Proof.
  induction s as [|c r IH]; [now split|].
  unfold lf_only. cbn [all_chars lf_or_crlf without_cr].
  intros H. apply andb_prop in H as [Hc Hr].
  destruct (IH Hr) as [H1 H2]. rewrite H1, H2, andb_true_r.
  assert (E : Ascii.eqb c Py.CR = false).
  { destruct (Ascii.eqb_spec c Py.CR) as [->|]; [discriminate | reflexivity]. }
  rewrite E. now split.
Qed.

(** *** The pieces between line feeds *)

Lemma no_break_no_LF (c : ascii) (r : string) :
  no_break (String c r) = true -> Ascii.eqb c Py.LF = false /\ no_break r = true.
Proof.
  unfold no_break. cbn [all_chars]. intros H. apply andb_prop in H as [Hc Hr].
  apply negb_true_iff in Hc. split; [now apply not_linebreak_not_LF | exact Hr].
Qed.

Lemma split_lf_cons (s : string) : split_lf s <> [].
Proof.
  destruct s as [|c r]; [discriminate|]. cbn [split_lf].
  destruct (Ascii.eqb c Py.LF); [discriminate|].
  destruct (split_lf r); discriminate.
Qed.

Lemma split_lf_line (l rest : string) :
  no_break l = true ->
  split_lf (l ++ String Py.LF rest) = l :: split_lf rest.
Proof.
  induction l as [|c r IH]; intros H.
  - reflexivity.
  - apply no_break_no_LF in H as [Hc Hr]. simpl append. cbn [split_lf].
    rewrite Hc, (IH Hr). reflexivity.
Qed.

Lemma split_lf_last (x : string) : no_break x = true -> split_lf x = [x].
Proof.
  induction x as [|c r IH]; intros H; [reflexivity|].
  apply no_break_no_LF in H as [Hc Hr]. cbn [split_lf]. now rewrite Hc, (IH Hr).
Qed.

(** Lines without line ends and a last piece without line end are found
    again in the text they make. *)
Lemma split_lf_terminate (ls : list string) (x : string) :
  Forall (fun l => no_break l = true) ls ->
  no_break x = true ->
  split_lf (terminate ls ++ x) = ls ++ [x].
Proof.
  intros Hls Hx. induction Hls as [|l r Hl Hr IH]; simpl.
  - now apply split_lf_last.
  - rewrite append_assoc. simpl append. now rewrite (split_lf_line _ _ Hl), IH.
Qed.

(* ===================================================================== *)
(** ** The assembly of lines *)
(* ===================================================================== *)

Lemma same_but_line_refl (st : Edat.state) : same_but_line st st.
Proof. repeat split. Qed.

(** One call: the lines it returns and the fragment it keeps are the
    fragment it had and the new content. *)
Lemma assemble_spec (content : string) (st : Edat.state) :
  lf_or_crlf_cut content = true ->
  no_break (Edat.last_line st) = true ->
  let '(ls, st') := Edat.assemble content st in
  (terminate ls ++ Edat.last_line st')%string
    = (Edat.last_line st ++ without_cr content)%string
  /\ no_break (Edat.last_line st') = true
  /\ Forall (fun l => no_break l = true) ls
  /\ same_but_line st st'.
Proof.
  intros Hc Hp. unfold Edat.assemble.
  pose proof (split_glue content Hc) as Hglue.
  pose proof (splitlines_no_break content) as Hnb.
  destruct (Py.splitlines content) as [|first rest] eqn:Hs.
  - apply splitlines_nil in Hs. subst content. cbn [without_cr].
    rewrite append_nil_r. repeat split; [exact Hp | constructor].
  - set (p := Edat.last_line st) in *.
    assert (Hlines :
      (if negb (String.eqb p "")
       then ((p ++ first)%string :: rest, Edat.set_last_line "" st)
       else (first :: rest, st))
      = ((p ++ first)%string :: rest, Edat.set_last_line "" st)).
    { destruct (String.eqb_spec p "") as [E|_]; [|reflexivity].
      simpl. rewrite E. simpl. f_equal.
      destruct st; unfold Edat.set_last_line, Edat.set_journal; simpl.
      subst p; simpl in E. now rewrite E. }
    rewrite Hlines. clear Hlines.
    pose proof (glue_prefix p first rest
                  (Py.endswith content (String Py.LF ""))) as Hpre.
    rewrite Hglue in Hpre.
    assert (Hall : Forall (fun l => no_break l = true)
                          ((p ++ first)%string :: rest)).
    { inversion Hnb as [|? ? Hf Hr]; subst. constructor; [|exact Hr].
      unfold no_break in *. now rewrite all_chars_app, Hp, Hf. }
    destruct (Py.endswith content (String Py.LF "")) eqn:He; simpl negb; cbv iota.
    + unfold glue in Hpre. simpl Edat.last_line. rewrite append_nil_r.
      repeat split; [exact Hpre | exact Hall].
    + unfold glue in Hpre. simpl Edat.last_line.
      repeat split; [exact Hpre | | ].
      * exact (last_no_break _ Hall).
      * exact (removelast_no_break _ Hall).
Qed.

Lemma skipn_app_length {A : Type} (a b : list A) :
  skipn (List.length a) (a ++ b) = b.
Proof. induction a; simpl; auto. Qed.

Lemma terminate_app (l1 l2 : list string) :
  terminate (l1 ++ l2) = (terminate l1 ++ terminate l2)%string.
Proof.
  induction l1 as [|x l IH]; simpl; [reflexivity|].
  now rewrite IH, append_assoc.
Qed.

Lemma without_cr_app (a b : string) :
  without_cr (a ++ b) = (without_cr a ++ without_cr b)%string.
Proof.
  induction a as [|c r IH]; [reflexivity|]. simpl.
  destruct (Ascii.eqb c Py.CR); simpl; now rewrite IH.
Qed.

Section EdatTail.

Variable decode : Py.bytes -> string.
Hypothesis decode_nil : decode [] = "".
Variable name : string.
Hypothesis name_nonempty : name <> "".

(** One read after [chunk] was appended to a journal read up to its
    end. *)
Lemma read_lines_chunk (data chunk : Py.bytes) (st : Edat.state) :
  Edat.current_journal_path st = Some name ->
  Edat.last_position st = List.length data ->
  lf_or_crlf_cut (decode chunk) = true ->
  no_break (Edat.last_line st) = true ->
  let '(ls, st') :=
    Edat.read_lines decode (journal_os name (data ++ chunk)) st in
  (terminate ls ++ Edat.last_line st')%string
    = (Edat.last_line st ++ without_cr (decode chunk))%string
  /\ no_break (Edat.last_line st') = true
  /\ Forall (fun l => no_break l = true) ls
  /\ Edat.current_journal_path st' = Some name
  /\ Edat.last_position st' = List.length (data ++ chunk).
Proof.
  intros Hpath Hpos Hc Hp. unfold Edat.read_lines. rewrite Hpath.
  destruct (String.eqb_spec name "") as [E|_]; [contradiction|].
  simpl read_bytes. rewrite String.eqb_refl. cbv zeta.
  rewrite Hpos, length_app.
  destruct chunk as [|b chunk'].
  - rewrite decode_nil. simpl List.length.
    rewrite Nat.add_0_r, Nat.leb_refl. cbn [without_cr].
    rewrite append_nil_r. repeat split; auto.
  - destruct (Nat.leb_spec (List.length data + List.length (b :: chunk'))
                           (List.length data)) as [Hle|_].
    { simpl in Hle. lia. }
    rewrite skipn_app_length.
    set (st1 := Edat.set_position _ st).
    pose proof (assemble_spec (decode (b :: chunk')) st1 Hc Hp) as H.
    destruct (Edat.assemble (decode (b :: chunk')) st1) as [ls st'].
    destruct H as (H1 & H2 & H3 & H4 & H5 & _).
    repeat split; auto.
    all: try (rewrite H4; exact Hpath).
    all: try (rewrite H5; reflexivity).
Qed.

(** All the reads: the lines returned and the fragment kept are the
    fragment at the start and the text of the chunks. *)
Lemma edat_tail_spec (chunks : list Py.bytes) :
  forall (data : Py.bytes) (st : Edat.state),
  Edat.current_journal_path st = Some name ->
  Edat.last_position st = List.length data ->
  lf_or_crlf (concat_all (map decode chunks)) = true ->
  no_break (Edat.last_line st) = true ->
  let '(ls, st') := edat_tail decode name data chunks st in
  (terminate ls ++ Edat.last_line st')%string
    = (Edat.last_line st ++ without_cr (concat_all (map decode chunks)))%string
  /\ no_break (Edat.last_line st') = true
  /\ Forall (fun l => no_break l = true) ls.
Proof.
  induction chunks as [|c r IH]; intros data st Hpath Hpos Hlf Hp.
  - simpl. rewrite append_nil_r. auto.
  - simpl in Hlf. apply lf_or_crlf_app in Hlf as [Hc Hr].
    simpl edat_tail.
    pose proof (read_lines_chunk data c st Hpath Hpos Hc Hp) as H1.
    destruct (Edat.read_lines decode (journal_os name (data ++ c)) st)
      as [l1 st1].
    destruct H1 as (E1 & Hp1 & Hn1 & Hpath1 & Hpos1).
    specialize (IH (data ++ c) st1 Hpath1 Hpos1 Hr Hp1).
    destruct (edat_tail decode name (data ++ c) r st1) as [l2 st2].
    destruct IH as (E2 & Hp2 & Hn2).
    split; [|split; [exact Hp2 | now apply Forall_app]].
    simpl map. simpl concat_all.
    rewrite without_cr_app, <- append_assoc, <- E1, append_assoc, <- E2.
    now rewrite terminate_app, append_assoc.
Qed.

End EdatTail.

(** The lines of a text that ends in a line feed, or of the empty text:
    every line is terminated. *)
Lemma splitlines_closed (T : string) :
  lf_or_crlf T = true ->
  T = "" \/ Py.endswith T (String Py.LF "") = true ->
  split_lf (without_cr T) = Py.splitlines T ++ [""].
Proof.
  intros Hlf HT.
  pose proof (split_glue T (lf_or_crlf_cut_of T Hlf)) as G.
  rewrite <- G. destruct HT as [->|HT]; [reflexivity|].
  rewrite HT. unfold glue.
  rewrite <- (append_nil_r (terminate (Py.splitlines T))).
  apply split_lf_terminate; [apply splitlines_no_break | reflexivity].
Qed.

(** The lines of a text that does not end in a line feed: the last one
    is not terminated. *)
Lemma splitlines_open (T : string) :
  lf_or_crlf T = true ->
  T <> "" -> Py.endswith T (String Py.LF "") = false ->
  split_lf (without_cr T) = Py.splitlines T.
Proof.
  intros Hlf Hne HT.
  pose proof (split_glue T (lf_or_crlf_cut_of T Hlf)) as G.
  rewrite <- G, HT. unfold glue.
  pose proof (splitlines_no_break T) as Hnb.
  assert (Hl : Py.splitlines T <> []).
  { intros E. now apply splitlines_nil in E. }
  rewrite split_lf_terminate;
    [| now apply removelast_no_break | now apply last_no_break].
  symmetry. now apply app_removelast_last.
Qed.

(** *** app.py: the lines of a chunk *)

Lemma filter_lines_cons (l : string) (r : list string) (last : option string) :
  App.filter_lines (l :: r) last
  = if String.eqb (Py.strip l) "" || opt_eqb (Some (Py.strip l)) last
    then App.filter_lines r last
    else let '(result, last') := App.filter_lines r (Some (Py.strip l)) in
         (Py.strip l :: result, last').
Proof. reflexivity. Qed.

Lemma filter_lines_app (l1 l2 : list string) :
  forall last : option string,
  App.filter_lines (l1 ++ l2) last
  = (fst (App.filter_lines l1 last)
       ++ fst (App.filter_lines l2 (snd (App.filter_lines l1 last))),
     snd (App.filter_lines l2 (snd (App.filter_lines l1 last)))).
Proof.
  induction l1 as [|x r IH]; intros last.
  - simpl. now destruct (App.filter_lines l2 last).
  - simpl app. rewrite !filter_lines_cons.
    destruct (String.eqb (Py.strip x) "" || _).
    + apply IH.
    + rewrite IH. destruct (App.filter_lines r (Some (Py.strip x))).
      reflexivity.
Qed.

Lemma is_journal_nonempty (name : string) :
  App.is_journal name = true -> String.eqb name "" = false.
Proof. destruct name; [discriminate | reflexivity]. Qed.

Lemma find_latest_journal_one (name : string) (data : Py.bytes) :
  App.is_journal name = true ->
  App.find_latest_journal (journal_os name data) = Some name.
Proof.
  intros H. unfold App.find_latest_journal. simpl. now rewrite H.
Qed.

Lemma opt_eqb_refl (a : option string) : opt_eqb a a = true.
Proof. destruct a; simpl; [apply String.eqb_refl | reflexivity]. Qed.

(** One read of app.py after [chunk] was appended to a journal read up to
    its end: the segments of the chunk, filtered. *)
Lemma app_read_chunk (decode : Py.bytes -> string) (name : string)
      (data chunk : Py.bytes) (st : App.state) :
  App.is_journal name = true ->
  App.current_file st = Some name ->
  App.last_position st = List.length data ->
  App.read_new_lines decode (journal_os name (data ++ chunk)) st
  = (fst (App.filter_lines (Py.readlines (decode chunk)) (App.last_line st)),
     App.set_read (List.length (data ++ chunk))
       (snd (App.filter_lines (Py.readlines (decode chunk)) (App.last_line st)))
       st).
Proof.
  intros Hj Hc Hp. unfold App.read_new_lines.
  rewrite (find_latest_journal_one _ _ Hj), (is_journal_nonempty _ Hj).
  unfold App.switch_journal. rewrite Hc, opt_eqb_refl.
  simpl read_bytes. rewrite String.eqb_refl. cbv zeta.
  rewrite Hp, skipn_app_length.
  replace (Nat.max (List.length data) (List.length (data ++ chunk)))
    with (List.length (data ++ chunk)) by (rewrite length_app; lia).
  now destruct (App.filter_lines _ _).
Qed.

(** All the reads of app.py: the segments of every chunk, filtered. *)
Lemma app_tail_spec (decode : Py.bytes -> string) (name : string)
      (chunks : list Py.bytes) :
  App.is_journal name = true ->
  forall (data : Py.bytes) (st : App.state),
  App.current_file st = Some name ->
  App.last_position st = List.length data ->
  fst (app_tail decode name data chunks st)
  = fst (App.filter_lines
           (flat_map (fun c => Py.readlines (decode c)) chunks)
           (App.last_line st)).
Proof.
  intros Hj. induction chunks as [|c r IH]; intros data st Hc Hp.
  - reflexivity.
  - simpl app_tail. rewrite (app_read_chunk decode name data c st Hj Hc Hp).
    specialize (IH (data ++ c)
                  (App.set_read (List.length (data ++ c))
                     (snd (App.filter_lines (Py.readlines (decode c))
                             (App.last_line st))) st)
                  Hc eq_refl).
    destruct (app_tail decode name (data ++ c) r _) as [l2 st2].
    simpl fst in *. simpl flat_map. rewrite filter_lines_app. simpl fst.
    now rewrite IH.
Qed.

(** *** [readlines] *)

Lemma readlines_LF (r : string) :
  Py.readlines (String Py.LF r) = String Py.LF "" :: Py.readlines r.
Proof. reflexivity. Qed.

Lemma readlines_CRLF (r : string) :
  Py.readlines (String Py.CR (String Py.LF r)) = Py.readlines (String Py.LF r).
Proof. reflexivity. Qed.

Lemma readlines_CR (c2 : ascii) (r : string) :
  Ascii.eqb c2 Py.LF = false ->
  Py.readlines (String Py.CR (String c2 r))
  = String Py.LF "" :: Py.readlines (String c2 r).
Proof.
  intros H.
  change (Py.readlines (String Py.CR (String c2 r)))
    with (if Ascii.eqb c2 Py.LF
          then String Py.LF "" :: Py.readlines r
          else String Py.LF "" :: Py.readlines (String c2 r)).
  now rewrite H.
Qed.

Lemma readlines_char (c : ascii) (r : string) :
  Ascii.eqb c Py.LF = false -> Ascii.eqb c Py.CR = false ->
  Py.readlines (String c r) = Py.cons_first c (Py.readlines r).
Proof. intros H1 H2. cbn [Py.readlines]. now rewrite H1, H2. Qed.

Lemma readlines_nil (s : string) : Py.readlines s = [] -> s = "".
Proof.
  destruct s as [|c r]; [reflexivity|]. cbn [Py.readlines].
  destruct (Ascii.eqb c Py.LF); [discriminate|].
  destruct (Ascii.eqb c Py.CR).
  - destruct r as [|c2 r2]; [discriminate|].
    destruct (Ascii.eqb c2 Py.LF); discriminate.
  - destruct (Py.readlines r); discriminate.
Qed.

(** A text without line end is one segment. *)
Lemma readlines_segment (t : string) :
  t <> "" -> no_break t = true -> Py.readlines t = [t].
Proof.
  induction t as [|c r IH]; [contradiction|]. intros _ H.
  unfold no_break in H. cbn [all_chars] in H. apply andb_prop in H as [Hc Hr].
  apply negb_true_iff in Hc.
  rewrite (readlines_char c r (not_linebreak_not_LF _ Hc)
             (not_linebreak_not_CR _ Hc)).
  destruct r as [|c2 r2]; [reflexivity|].
  rewrite IH; [reflexivity | discriminate | exact Hr].
Qed.

(** What follows a line feed is split on its own. *)
Lemma readlines_app (x y : string) :
  Py.endswith x (String Py.LF "") = true ->
  Py.readlines (x ++ y) = Py.readlines x ++ Py.readlines y.
Proof.
  induction x as [|c r IH]; [discriminate|].
  rewrite endswith_cons_LF. intros H. simpl append.
  destruct (Ascii.eqb_spec c Py.LF) as [->|Hn].
  - rewrite !readlines_LF. simpl app. f_equal.
    destruct r as [|c2 r2]; [reflexivity|].
    apply IH. now rewrite andb_false_r in H.
  - apply Ascii.eqb_neq in Hn. simpl in H.
    destruct (Ascii.eqb_spec c Py.CR) as [->|Hm].
    + destruct r as [|c2 r2]; [discriminate|].
      destruct (Ascii.eqb_spec c2 Py.LF) as [->|Hl].
      * simpl append. rewrite !readlines_CRLF. exact (IH H).
      * apply Ascii.eqb_neq in Hl. simpl append.
        rewrite !(readlines_CR c2 _ Hl). simpl app. f_equal. exact (IH H).
    + apply Ascii.eqb_neq in Hm. rewrite !(readlines_char c _ Hn Hm), (IH H).
      destruct (Py.readlines r) as [|hd tl] eqn:E; [|reflexivity].
      apply readlines_nil in E. subst r. discriminate.
Qed.

(** C2 (amended).  EDAT.py, a journal whose line ends are line feeds,
    alone or after a carriage return, read from its start in any number
    of reads, chunk by chunk, wherever the chunks are cut.  The lines the
    reads hand to the parser, each with a line feed put back, followed by
    the fragment the reader keeps, are the text of the chunks without its
    carriage returns; no line and no fragment holds a line end.  When
    the text is empty or ends in a line feed, the lines are the lines of
    the text and the fragment is empty; otherwise the lines and the
    fragment after them are the lines of the text.  When the text has no
    carriage return, the lines with their line feeds and the fragment are
    the text itself.

    app.py keeps no fragment.  Whatever the chunks hold, the lines its
    reads return are the segments of each chunk, each chunk split on its
    own, passed through the filter of blank and repeated lines; and the
    text that follows the last line feed of a chunk is a segment of the
    chunk, so it is handed on as a line by the read that sees it. *)
Theorem split_invariance
    (decode : Py.bytes -> string) (name : string)
    (chunks : list Py.bytes) (e : Edat.state) (a : App.state) :
  (decode [] = "" ->
   name <> "" ->
   Edat.current_journal_path e = Some name ->
   Edat.last_position e = 0 ->
   Edat.last_line e = "" ->
   lf_or_crlf (concat_all (map decode chunks)) = true ->
   let T := concat_all (map decode chunks) in
   let '(ls, e') := edat_tail decode name [] chunks e in
   (terminate ls ++ Edat.last_line e')%string = without_cr T
   /\ no_break (Edat.last_line e') = true
   /\ Forall (fun l => no_break l = true) ls
   /\ (T = "" \/ Py.endswith T (String Py.LF "") = true ->
       ls = Py.splitlines T /\ Edat.last_line e' = "")
   /\ (T <> "" -> Py.endswith T (String Py.LF "") = false ->
       ls ++ [Edat.last_line e'] = Py.splitlines T)
   /\ (lf_only T = true -> (terminate ls ++ Edat.last_line e')%string = T))
  /\ (App.is_journal name = true ->
      App.current_file a = Some name ->
      App.last_position a = 0 ->
      fst (app_tail decode name [] chunks a)
      = fst (App.filter_lines
               (flat_map (fun c => Py.readlines (decode c)) chunks)
               (App.last_line a)))
  /\ (forall x t : string,
      x = "" \/ Py.endswith x (String Py.LF "") = true ->
      t <> "" -> no_break t = true ->
      Py.readlines (x ++ t) = Py.readlines x ++ [t]).
Proof.
  split; [|split].
  - intros Hdec Hname Hpath Hpos Hline Hlf T.
    assert (Hp : no_break (Edat.last_line e) = true) by now rewrite Hline.
    pose proof (edat_tail_spec decode Hdec name Hname chunks [] e
                  Hpath Hpos Hlf Hp) as H.
    destruct (edat_tail decode name [] chunks e) as [ls e'].
    rewrite Hline in H. simpl in H. fold T in H, Hlf.
    destruct H as (E & Hnb & Hls).
    assert (S : split_lf (without_cr T) = ls ++ [Edat.last_line e']).
    { rewrite <- E. now apply split_lf_terminate. }
    split; [exact E|]. split; [exact Hnb|]. split; [exact Hls|].
    split; [|split].
    + intros HT. rewrite (splitlines_closed T Hlf HT) in S.
      apply app_inj_tail in S as [S1 S2]. now split.
    + intros Hne HT. now rewrite <- S, (splitlines_open T Hlf Hne HT).
    + intros Hu. rewrite E. now apply lf_only_lf_or_crlf.
  - intros Hj Hc Hp. now apply app_tail_spec.
  - intros x t [->|Hx] Ht Hn.
    + simpl. now apply readlines_segment.
    + rewrite (readlines_app x t Hx). f_equal. now apply readlines_segment.
Qed.

Lemma split_invariance_witness :
  lf_or_crlf (concat_all (map Py.decode_ascii crlf_chunks)) = true
  /\ concat_all (map Py.decode_ascii crlf_chunks) = Py.eol "{1}^${2}^$"
  /\ fst (edat_tail Py.decode_ascii journal_name [] crlf_chunks
            (tracking journal_name))
     = Py.splitlines (concat_all (map Py.decode_ascii crlf_chunks))
  /\ Py.splitlines (concat_all (map Py.decode_ascii crlf_chunks))
     = ["{1}"; "{2}"]
  /\ fst (app_tail Py.decode_ascii journal_name [] crlf_chunks app_started)
     = ["{1"; "}"; "{2}"].
Proof.
  pose proof (split_invariance Py.decode_ascii journal_name crlf_chunks
                (tracking journal_name) app_started) as (He & Ha & _).
  specialize (He eq_refl ltac:(discriminate) eq_refl eq_refl eq_refl eq_refl).
  specialize (Ha eq_refl eq_refl eq_refl).
  split; [reflexivity|].
  split; [reflexivity|].
  split; [|split; [reflexivity|]].
  - cbv zeta in He.
    destruct (edat_tail Py.decode_ascii journal_name [] crlf_chunks
                (tracking journal_name)) as [ls e'].
    destruct He as (_ & _ & _ & H & _).
    exact (proj1 (H (or_intror eq_refl))).
  - rewrite Ha. reflexivity.
Defined.

(** C2, counterexample.  app.py reads the text [ab], line feed, in two
    chunks, [a] and then [b], line feed: it returns the lines [a] and [b].
    EDAT.py reads [a], carriage return, [b], line feed, cut after the
    carriage return: it returns the one line [ab], where the text has the
    lines [a] and [b].  The same for each of the other characters at
    which [str.splitlines] ends a line, when the text is cut after it. *)
Lemma split_invariance_counterexample :
  fst (app_tail Py.decode_ascii journal_name []
         (map list_byte_of_string [""; "a"; Py.eol "b$"]) App.initial)
    = ["a"; "b"]
  /\ terminate ["a"; "b"] <> Py.eol "ab$"
  /\ fst (edat_tail Py.decode_ascii journal_name []
            (map list_byte_of_string [Py.eol "a^"; Py.eol "b$"])
            (tracking journal_name))
       = ["ab"]
  /\ Py.splitlines (Py.eol "a^b$") = ["a"; "b"]
  /\ forallb
       (fun c =>
          match Py.splitlines (String "a" (String c (Py.eol "b$"))),
                Edat.assemble (Py.eol "b$")
                  (snd (Edat.assemble (String "a" (String c ""))
                          (tracking journal_name)))
          with
          | [l1; l2], ([l], _) =>
              String.eqb l1 "a" && String.eqb l2 "b" && String.eqb l "ab"
          | _, _ => false
          end)
       other_line_ends
     = true.
Proof.
  split; [vm_compute; reflexivity|].
  split; [vm_compute; discriminate|].
  split; [vm_compute; reflexivity|].
  split; vm_compute; reflexivity.
Qed.

(* ===================================================================== *)
(** ** The file cursor *)
(* ===================================================================== *)

Lemma opt_eqb_eq (a b : option string) : opt_eqb a b = true <-> a = b.
Proof.
  destruct a as [x|], b as [y|]; simpl; split; intros H;
    try discriminate; try reflexivity.
  - apply String.eqb_eq in H. now subst.
  - injection H as ->. apply String.eqb_refl.
Qed.

Lemma filter_lines_nil (last : option string) :
  App.filter_lines [] last = ([], last).
Proof. reflexivity. Qed.

(** C1 (amended).  app.py: when the newest journal is not the tracked one,
    it becomes the tracked one and the offset is the size of the file, or
    zero when the size cannot be asked; a read of a file of that size then
    returns no line and leaves the offset at the size.  EDAT.py: when the
    newest journal is not the tracked one, it becomes the tracked one, the
    offset is zero and the kept fragment is empty.  In both, when the
    newest journal is the tracked one, the state is as it was. *)
Theorem journal_switch
    (decode : Py.bytes -> string) (os : OS) (latest : string)
    (a : App.state) (e : Edat.state)
    (files rest : list (string * Q)) (t : Q) (data : Py.bytes) :
  (opt_eqb (Some latest) (App.current_file a) = false ->
     App.switch_journal os latest a
     = App.set_cursor (Some latest)
         (match getsize os latest with Some n => n | None => 0 end) a)
  /\ (opt_eqb (Some latest) (App.current_file a) = false ->
      decode [] = "" ->
      App.find_latest_journal os = Some latest ->
      latest <> "" ->
      getsize os latest = Some (List.length data) ->
      read_bytes os latest = Some data ->
      App.read_new_lines decode os a
      = ([], App.set_cursor (Some latest) (List.length data) a))
  /\ (opt_eqb (Some latest) (App.current_file a) = true ->
      App.switch_journal os latest a = a)
  /\ (sort_desc files = (latest, t) :: rest ->
      opt_eqb (Edat.current_journal_path e) (Some latest) = false ->
      Edat.find_latest_journal (Some files) e
      = (Some latest, Edat.set_journal (Some latest) 0 "" e))
  /\ (sort_desc files = (latest, t) :: rest ->
      opt_eqb (Edat.current_journal_path e) (Some latest) = true ->
      Edat.find_latest_journal (Some files) e = (Some latest, e)).
Proof.
  repeat split.
  - intros H. unfold App.switch_journal. now rewrite H.
  - intros H Hdec Hlatest Hne Hsize Hread.
    unfold App.read_new_lines. rewrite Hlatest.
    destruct (String.eqb_spec latest "") as [E|_]; [contradiction|].
    unfold App.switch_journal. rewrite H, Hsize, Hread.
    cbn [App.set_cursor App.last_position App.last_line].
    rewrite skipn_all, Hdec, Nat.max_id. simpl Py.readlines.
    rewrite filter_lines_nil. reflexivity.
  - intros H. unfold App.switch_journal. now rewrite H.
  - intros Hs H. unfold Edat.find_latest_journal. rewrite Hs, H. reflexivity.
  - intros Hs H. unfold Edat.find_latest_journal. rewrite Hs, H.
    apply opt_eqb_eq in H. now rewrite H.
Qed.

(** C1, counterexample.  EDAT.py finds the journal [Journal.1.log], which
    already holds one line of 26 bytes: the offset it sets is zero, and the
    read that follows returns the line. *)
Lemma journal_switch_counterexample :
  getsize (journal_os journal_name old_journal) journal_name = Some 26
  /\ Edat.last_position
       (snd (Edat.find_latest_journal (Some [(journal_name, 1%Q)])
               Edat.initial)) = 0
  /\ fst (Edat.read_new_journal_entries Py.decode_ascii Json.loads
            (journal_os journal_name old_journal)
            (snd (Edat.find_latest_journal (Some [(journal_name, 1%Q)])
                    Edat.initial)))
     = [Json.JObj [("event", Json.JStr "FSDJump"); ("x", Json.JInt 1)]].
Proof. vm_compute. repeat split. Qed.

Lemma journal_switch_witness :
  opt_eqb (Some journal_name) (App.current_file App.initial) = false
  /\ App.read_new_lines Py.decode_ascii (journal_os journal_name old_journal)
       App.initial
     = ([], App.set_cursor (Some journal_name) 26 App.initial)
  /\ Edat.find_latest_journal (Some [(journal_name, 1%Q)]) Edat.initial
     = (Some journal_name,
        Edat.set_journal (Some journal_name) 0 "" Edat.initial).
Proof.
  pose proof (journal_switch Py.decode_ascii
                (journal_os journal_name old_journal) journal_name
                App.initial Edat.initial
                [(journal_name, 1%Q)] [] 1%Q old_journal)
    as (_ & H2 & _ & H4 & _).
  split; [reflexivity|]. split.
  - exact (H2 eq_refl eq_refl eq_refl ltac:(discriminate) eq_refl eq_refl).
  - exact (H4 eq_refl eq_refl).
Defined.

(* ===================================================================== *)
(** ** app.py: repeated lines *)
(* ===================================================================== *)



Lemma filter_lines_spec (lines : list string) :
  forall last : option string,
  let '(out, last') := App.filter_lines lines last in
  last' = remembered last out
  /\ no_repeat (prev last ++ out) = true.
Proof.
  induction lines as [|l r IH]; intros last.
  - simpl. split; [reflexivity|]. destruct last; reflexivity.
  - rewrite filter_lines_cons.
    destruct (String.eqb (Py.strip l) "" || opt_eqb (Some (Py.strip l)) last)
      eqn:E.
    + apply IH.
    + specialize (IH (Some (Py.strip l))).
      destruct (App.filter_lines r (Some (Py.strip l))) as [out last'].
      destruct IH as [IH1 IH2]. split; [exact IH1|].
      apply orb_false_elim in E as [_ E].
      destruct last as [x|]; [|exact IH2].
      simpl in E. cbn [prev app] in IH2 |- *.
      change (no_repeat (x :: Py.strip l :: out))
        with (negb (String.eqb x (Py.strip l)) && no_repeat (Py.strip l :: out)).
      now rewrite String.eqb_sym, E, IH2.
Qed.

Lemma no_repeat_app (p : option string) (o1 o2 : list string) :
  no_repeat (prev p ++ o1) = true ->
  no_repeat (prev (remembered p o1) ++ o2) = true ->
  no_repeat (prev p ++ o1 ++ o2) = true.
Proof.
  revert p. induction o1 as [|x o1 IH]; intros p H1 H2.
  - exact H2.
  - specialize (IH (Some x)).
    assert (Hx : no_repeat (prev (Some x) ++ o1) = true).
    { destruct p; [|exact H1]. cbn [prev app no_repeat] in H1.
      apply andb_prop in H1 as [_ H1]. exact H1. }
    specialize (IH Hx H2).
    destruct p as [y|]; [|exact IH].
    cbn [prev app no_repeat] in H1 |- *.
    apply andb_prop in H1 as [H1 _]. rewrite H1. exact IH.
Qed.

Lemma read_new_lines_spec (decode : Py.bytes -> string) (os : OS) (st : App.state) :
  let '(out, st') := App.read_new_lines decode os st in
  App.last_line st' = remembered (App.last_line st) out
  /\ no_repeat (prev (App.last_line st) ++ out) = true.
Proof.
  assert (Hnil : forall p, no_repeat (prev p ++ []) = true)
    by (intros [x|]; reflexivity).
  unfold App.read_new_lines.
  destruct (App.find_latest_journal os) as [latest|]; [|split; [reflexivity|apply Hnil]].
  destruct (String.eqb latest ""); [split; [reflexivity|apply Hnil]|].
  assert (Hl : App.last_line (App.switch_journal os latest st) = App.last_line st).
  { unfold App.switch_journal. now destruct (opt_eqb _ _). }
  destruct (read_bytes os latest) as [data|].
  - match goal with
    | |- context [App.filter_lines ?ls ?la] =>
        pose proof (filter_lines_spec ls la) as H;
        destruct (App.filter_lines ls la) as [out last']
    end.
    rewrite Hl in H. exact H.
  - rewrite Hl. split; [reflexivity|apply Hnil].
Qed.

(** C9.  app.py: a line that is, once stripped, the line remembered as the
    last one returned is passed over.  The line remembered after a read is
    the last line the read returned, or the one remembered before when it
    returned none; so in the lines that two reads in a row return, the
    second read starting from the state the first one left, whatever the
    directory and the files hold at the time of each, no line is the same
    as the line before it, and the first is not the line remembered
    before the first read. *)
Theorem repeated_line_dropped
    (decode : Py.bytes -> string) (os1 os2 : OS) (st : App.state)
    (l x : string) (r : list string) :
  (Py.strip l = x ->
   App.filter_lines (l :: r) (Some x) = App.filter_lines r (Some x))
  /\ let '(out1, st1) := App.read_new_lines decode os1 st in
     let '(out2, st2) := App.read_new_lines decode os2 st1 in
     App.last_line st1 = remembered (App.last_line st) out1
     /\ no_repeat (prev (App.last_line st) ++ out1 ++ out2) = true.
Proof.
  split.
  - intros <-. rewrite filter_lines_cons. simpl opt_eqb.
    now rewrite String.eqb_refl, orb_true_r.
  - pose proof (read_new_lines_spec decode os1 st) as H1.
    destruct (App.read_new_lines decode os1 st) as [out1 st1].
    pose proof (read_new_lines_spec decode os2 st1) as H2.
    destruct (App.read_new_lines decode os2 st1) as [out2 st2].
    destruct H1 as [E1 N1], H2 as [_ N2]. split; [exact E1|].
    rewrite E1 in N2. now apply no_repeat_app.
Qed.

(** Two prospect results with the same text, written one after the other
    and read by two reads: the second read returns nothing. *)
Lemma repeated_line_dropped_witness :
  Py.strip (Py.eol (result_line ++ "$")) = result_line
  /\ App.filter_lines [Py.eol (result_line ++ "$")] (Some result_line)
     = App.filter_lines [] (Some result_line)
  /\ fst (App.read_new_lines Py.decode_ascii
            (journal_os journal_name result_bytes) app_started)
     = [result_line]
  /\ fst (App.read_new_lines Py.decode_ascii
            (journal_os journal_name (result_bytes ++ result_bytes))
            (snd (App.read_new_lines Py.decode_ascii
                    (journal_os journal_name result_bytes) app_started)))
     = [].
Proof.
  pose proof (repeated_line_dropped Py.decode_ascii
                (journal_os journal_name result_bytes)
                (journal_os journal_name (result_bytes ++ result_bytes))
                app_started
                (Py.eol (result_line ++ "$")) result_line []) as [H _].
  split; [reflexivity|].
  split; [exact (H eq_refl)|].
  split; vm_compute; reflexivity.
Defined.

(* ===================================================================== *)
(** ** app.py: the guards of the handlers *)
(* ===================================================================== *)

(** C10.  app.py: a line that does not hold the text of the guard of a
    handler, written without any space, is not handled by it, whatever the
    line decodes to: the handler returns [False] and changes nothing; a
    line that holds neither text leaves the state of the loop as it
    was. *)
Theorem unspaced_discriminator_required
    (json_loads : string -> Json.decoded) (str_of : Json.json -> string)
    (now : string) (thresholds : list (string * Q))
    (line : string) (st : App.state) :
  (Py.contains App.EVENT_PROSPECTED line = false ->
   App.handle_mining json_loads str_of now thresholds line st = (st, false))
  /\ (Py.contains App.EVENT_RECEIVETEXT line = false ->
      App.handle_message json_loads str_of line st = (st, false))
  /\ (Py.contains App.EVENT_PROSPECTED line = false ->
      Py.contains App.EVENT_RECEIVETEXT line = false ->
      App.process_line json_loads str_of now thresholds line st = st).
Proof.
  assert (Hm : Py.contains App.EVENT_PROSPECTED line = false ->
               App.handle_mining json_loads str_of now thresholds line st
               = (st, false)).
  { intros H. unfold App.handle_mining. now rewrite H. }
  assert (Ht : Py.contains App.EVENT_RECEIVETEXT line = false ->
               App.handle_message json_loads str_of line st = (st, false)).
  { intros H. unfold App.handle_message. now rewrite H. }
  split; [exact Hm|]. split; [exact Ht|].
  intros H1 H2. unfold App.process_line. now rewrite (Hm H1), (Ht H2).
Qed.

Lemma unspaced_discriminator_required_witness :
  Py.contains App.EVENT_PROSPECTED spaced_prospect_line = false
  /\ Py.contains App.EVENT_RECEIVETEXT spaced_prospect_line = false
  /\ Py.contains App.EVENT_PROSPECTED spaced_message_line = false
  /\ Py.contains App.EVENT_RECEIVETEXT spaced_message_line = false
  /\ (exists ms, Json.loads spaced_prospect_line = Json.Ok (Json.JObj ms)
       /\ Json.get "event" Json.JNull ms = Json.JStr "ProspectedAsteroid")
  /\ (exists ms, Json.loads spaced_message_line = Json.Ok (Json.JObj ms)
       /\ Json.get "event" Json.JNull ms = Json.JStr "ReceiveText")
  /\ App.process_line Json.loads str_of_str "now" [("Platinum", 30%Q)]
       spaced_prospect_line App.initial
     = App.initial
  /\ App.process_line Json.loads str_of_str "now" [("Platinum", 30%Q)]
       spaced_message_line App.initial
     = App.initial.
Proof.
  do 4 (split; [reflexivity|]).
  split; [eexists; split; vm_compute; reflexivity|].
  split; [eexists; split; vm_compute; reflexivity|].
  split.
  - exact (proj2 (proj2 (unspaced_discriminator_required Json.loads str_of_str
                           "now" [("Platinum", 30%Q)] spaced_prospect_line
                           App.initial)) eq_refl eq_refl).
  - exact (proj2 (proj2 (unspaced_discriminator_required Json.loads str_of_str
                           "now" [("Platinum", 30%Q)] spaced_message_line
                           App.initial)) eq_refl eq_refl).
Defined.

(* ===================================================================== *)
(** ** The order of the announcements *)
(* ===================================================================== *)


Lemma run_invariant (actions : list App.action) :
  forall t : App.tts,
  App.said (App.run actions t) ++ filter nonempty (App.queue (App.run actions t))
  = App.said t ++ filter nonempty (App.queue t ++ enqueued actions).
Proof.
  induction actions as [|a r IH]; intros t.
  - simpl. now rewrite app_nil_r.
  - change (App.run (a :: r) t) with (App.run r (App.step t a)).
    rewrite IH. destruct a as [text|].
    + simpl. unfold App.speak. now rewrite <- app_assoc.
    + destruct t as [[|x q] s]; [reflexivity|].
      simpl. unfold nonempty at 2.
      destruct (String.eqb x ""); simpl; [reflexivity|].
      now rewrite <- app_assoc.
Qed.

(** C8 (amended).  app.py: after any sequence of calls of [speak] and
    turns of the worker, the texts the worker has handed to the engine,
    followed by the texts of the queue that are not empty, are the texts
    given to [speak] that are not empty, in the order of the calls: the
    worker says a prefix of them, in that order, each as often as it was
    given, and the queue holds the rest. *)
Theorem announcements_in_order (actions : list App.action) :
  App.said (App.run actions App.idle)
    ++ filter nonempty (App.queue (App.run actions App.idle))
  = filter nonempty (enqueued actions).
Proof. now rewrite run_invariant. Qed.

(** C8, counterexample.  EDAT.py starts a thread for the text [a] and one
    for the text [b]; the scheduler lets the second one call the engine
    first: the engine is given [b] before [a]. *)
Lemma announcements_in_order_counterexample :
  Edat.said (Edat.run [Edat.Start "a"; Edat.Start "b"; Edat.Say 1; Edat.Say 0]
               Edat.idle)
  = ["b"; "a"].
Proof. reflexivity. Qed.


(* ===================================================================== *)
(** ** The materials of a prospect result *)
(* ===================================================================== *)

Lemma app_after_nil (st : App.state) : app_after [] [] st = st.
Proof. destruct st. unfold app_after. simpl. now rewrite !app_nil_r. Qed.


Lemma app_after_after (m1 m2 : list string) (r1 r2 : list App.row)
      (st : App.state) :
  app_after m2 r2 (app_after m1 r1 st) = app_after (m1 ++ m2) (r1 ++ r2) st.
Proof. unfold app_after. simpl. now rewrite !app_assoc. Qed.


Section AppMaterials.
Import Json.

Variable str_of : json -> string.
Variable thresholds : list (string * Q).
Variable ts : json.







End AppMaterials.



Section EdatMaterials.
Import Json.

Variable now : string.
Variable targets : list (string * Q).
Variable ms : list (string * json).







End EdatMaterials.






(* ===================================================================== *)
(** ** Truncation and rounding *)
(* ===================================================================== *)

(** The integer part of [x] is the integer next to [x] on the side of
    zero. *)
Lemma truncate_bounds (x : Q) :
  ((0 <= x -> inject_Z (Py.truncate x) <= x
              /\ x < inject_Z (Py.truncate x) + 1)
   /\ (x <= 0 -> inject_Z (Py.truncate x) < x + 1
                 /\ x <= inject_Z (Py.truncate x)))%Q.
Proof.
  destruct x as [n d]. unfold Py.truncate. simpl Qnum. simpl Qden.
  pose proof (Z.quot_rem' n (Zpos d)) as E.
  assert (Hpos : (0 <= n -> 0 <= Z.rem n (Zpos d) < Zpos d)%Z)
    by (intros; apply Z.rem_bound_pos; lia).
  assert (Hneg : (n <= 0 -> - Zpos d < Z.rem n (Zpos d) <= 0)%Z).
  { intros Hn. pose proof (Z.rem_opp_l n (Zpos d) ltac:(lia)) as Eo.
    pose proof (Z.rem_bound_pos (- n) (Zpos d) ltac:(lia) ltac:(lia)). lia. }
  set (t := Z.quot n (Zpos d)) in *. set (m := Z.rem n (Zpos d)) in *.
  clearbody t m.
  split; intros H; unfold Qle, Qlt, Qplus, Qminus, Qopp, inject_Z in *;
    cbn [Qnum Qden] in *; change (Z.pos (1 * 1)) with 1%Z;
    rewrite ?Pos.mul_1_r, ?Z.mul_1_r in *.
  - specialize (Hpos ltac:(lia)). clear Hneg. nia.
  - specialize (Hneg ltac:(lia)). clear Hpos. nia.
Qed.


(* ===================================================================== *)
(** ** Prospect results: announcements and rows *)
(* ===================================================================== *)







Section Prospect.
Import Json.

Variable str_of : json -> string.
Variable now : string.
Variable targets : list (string * Q).

(** The members of an entry for a prospected asteroid, and its
    materials. *)
Variable ms : list (string * json).
Variable mats : list json.

Hypothesis event_prospected :
  eq_str (get "event" JNull ms) "ProspectedAsteroid" = true.
Hypothesis materials_list :
  get "Materials" (JArr []) ms = JArr mats.

Variable e : Edat.state.
Variable a : App.state.




End Prospect.








(** A material at which an exception is raised ends the loop of either
    program: the platinum that stands after it is neither announced nor
    stored. *)
Example exception_ends_loop :
  exists ms,
    Json.loads null_first_line = Json.Ok (Json.JObj ms)
    /\ Json.get "Materials" (Json.JArr []) ms = Json.JArr null_first_materials
    /\ examined null_first_materials = []
    /\ App.handle_mining Json.loads str_of_str "now" default_targets
         null_first_line App.initial
       = (App.initial, false)
    /\ Edat.process_asteroid "now" default_targets (Json.JObj ms) Edat.initial
       = (Edat.initial, Some false).
Proof.
  eexists. split; [vm_compute; reflexivity|].
  repeat split; vm_compute; reflexivity.
Qed.

(** A proportion past the greatest float is an infinity: EDAT.py records
    the material and does not announce it; app.py does neither. *)
Example infinite_proportion :
  exists ms,
    Json.loads infinite_line = Json.Ok (Json.JObj ms)
    /\ Json.get "Materials" (Json.JArr []) ms
       = Json.JArr [Json.JObj infinite_fields]
    /\ Edat.announced
         (fst (Edat.process_asteroid "now" default_targets (Json.JObj ms)
                 Edat.initial)) = []
    /\ map Edat.proportion
         (Edat.stats
            (fst (Edat.process_asteroid "now" default_targets (Json.JObj ms)
                    Edat.initial)))
       = [Json.JFloat (S754_infinity false)]
    /\ snd (Edat.process_asteroid "now" default_targets (Json.JObj ms)
              Edat.initial) = Some false
    /\ App.handle_mining Json.loads str_of_str "now" default_targets
         infinite_line App.initial
       = (App.initial, false).
Proof.
  eexists. split; [vm_compute; reflexivity|].
  repeat split; vm_compute; reflexivity.
Qed.

(* ===================================================================== *)
(** ** The value announced and the value stored *)
(* ===================================================================== *)




(* ===================================================================== *)
(** ** The fallback of the message handler *)
(* ===================================================================== *)

(** C7.  app.py on a message of a character of the game, once whole and
    once cut before its closing brace.  The whole line decodes and is
    announced.  The cut line does not decode; the three patterns find the
    sender, the text and the channel; nothing is announced and the
    handler returns [False].  The same for a message of a player.  A
    message of the squadron cut in the same way is announced. *)
Lemma fallback_announces_squadron_only :
  App.handle_message Json.loads str_of_str npc_line App.initial
  = (app_after ["NPC PIRATE MESSAGE: hand over your cargo"] [] App.initial, true)
  /\ Json.loads npc_line_cut = Json.JSONDecodeError
  /\ Re.search_field "From" npc_line_cut = Some "Bob"
  /\ Re.search_field "Message" npc_line_cut = Some "hand over your cargo"
  /\ Re.search_field "Channel" npc_line_cut = Some "npc"
  /\ App.handle_message Json.loads str_of_str npc_line_cut App.initial
     = (App.initial, false)
  /\ App.handle_message Json.loads str_of_str player_line_cut App.initial
     = (App.initial, false)
  /\ App.handle_message Json.loads str_of_str squadron_line_cut App.initial
     = (app_after ["message from squadron member Bob saying: o7"] []
          App.initial, true).
Proof. vm_compute. repeat split. Qed.

(* ===================================================================== *)
(** ** The examples of the specification *)
(* ===================================================================== *)

(** EDAT.py, with a target of 50 for platinum, on a prospect result with
    platinum at 55 and all of its content remaining: one announcement and
    one row. *)
Example edat_platinum_55 :
  exists ms,
    Json.loads (Py.q "{'event':'ProspectedAsteroid','timestamp':'T1','Remaining':100.0,'Materials':[{'Name':'Platinum','Proportion':55.0}]}")
    = Json.Ok (Json.JObj ms)
    /\ Edat.announced
         (fst (Edat.process_asteroid "now" [("Platinum", 50%Q)] (Json.JObj ms)
                 Edat.initial))
       = ["Platinum asteroid found with 55 percent content"]
    /\ List.length
         (Edat.stats
            (fst (Edat.process_asteroid "now" [("Platinum", 50%Q)]
                    (Json.JObj ms) Edat.initial))) = 1.
Proof. eexists. split; [vm_compute; reflexivity|]. split; reflexivity. Qed.

(** With 80 percent remaining, EDAT.py announces nothing and app.py
    announces the platinum. *)
Example remaining_80 :
  exists ms,
    Json.loads (Py.q "{'event':'ProspectedAsteroid','timestamp':'T1','Remaining':80.0,'Materials':[{'Name':'Platinum','Proportion':55.0}]}")
    = Json.Ok (Json.JObj ms)
    /\ Edat.process_asteroid "now" [("Platinum", 50%Q)] (Json.JObj ms)
         Edat.initial
       = (Edat.initial, None)
    /\ App.tts_queue
         (fst (App.handle_mining_json str_of_str "now" [("Platinum", 50%Q)]
                 (Json.JObj ms) App.initial))
       = ["Platinum found at 55 percent"].
Proof. eexists. split; [vm_compute; reflexivity|]. split; reflexivity. Qed.

(** app.py on a message of a character of the game that holds one of the
    words of a pirate. *)
Example npc_pirate :
  App.tts_queue
    (fst (App.handle_message Json.loads str_of_str npc_line App.initial))
  = ["NPC PIRATE MESSAGE: hand over your cargo"].
Proof. vm_compute. reflexivity. Qed.

(** The prospect result cut short goes the way of the patterns and gives
    what the whole line gives. *)
Example prospect_line_cut_agrees :
  Json.loads prospect_line_cut = Json.JSONDecodeError
  /\ App.handle_mining Json.loads str_of_str "now" default_targets
       prospect_line_cut App.initial
     = App.handle_mining Json.loads str_of_str "now" default_targets
         prospect_line App.initial.
Proof. vm_compute. split; reflexivity. Qed.


(* ===================================================================== *)
(** * Further properties *)
(* ===================================================================== *)

(* ===================================================================== *)
(** ** The newest journal *)
(* ===================================================================== *)

Lemma key_under (x y : Q) :
  Qle_bool x y && negb (Qeq_bool x y) = true <-> (x < y)%Q.
Proof.
  rewrite andb_true_iff, negb_true_iff, Qle_bool_iff.
  split.
  - intros [Hle Hne]. apply Qeq_bool_neq in Hne.
    apply Qle_lteq in Hle as [H|H]; [exact H | contradiction].
  - intros H. split; [now apply Qlt_le_weak|].
    destruct (Qeq_bool x y) eqn:E; [|reflexivity].
    apply Qeq_bool_iff in E. rewrite E in H. now apply Qlt_irrefl in H.
Qed.

Lemma key_not_under (x y : Q) :
  Qle_bool x y && negb (Qeq_bool x y) = false -> (y <= x)%Q.
Proof.
  intros H. apply Qnot_lt_le. intros L. apply key_under in L. congruence.
Qed.

Lemma insert_desc_cons {A : Type} (x : A * Q) (l : list (A * Q)) :
  insert_desc x l <> [].
Proof. destruct l as [|y r]; simpl; [|destruct (_ && _)]; discriminate. Qed.

Lemma sort_desc_nil {A : Type} (l : list (A * Q)) :
  sort_desc l = [] -> l = [].
Proof.
  destruct l as [|x r]; [reflexivity|]. simpl. intros H.
  now apply insert_desc_cons in H.
Qed.

(** The head of the sorted list is the first item of the list among those
    with the greatest key. *)
Lemma sort_desc_head {A : Type} (l : list (A * Q)) :
  forall (x : A * Q) (r : list (A * Q)),
  sort_desc l = x :: r ->
  exists l1 l2,
    l = l1 ++ x :: l2
    /\ Forall (fun y => (snd y < snd x)%Q) l1
    /\ Forall (fun y => (snd y <= snd x)%Q) l2.
Proof.
  induction l as [|a l' IH]; intros x r H; [discriminate|].
  simpl in H. destruct (sort_desc l') as [|y s] eqn:E.
  - apply sort_desc_nil in E. subst l'. simpl in H. injection H as <- _.
    exists [], []. repeat split; constructor.
  - destruct (IH y s eq_refl) as (l1 & l2 & -> & H1 & H2).
    simpl in H.
    destruct (Qle_bool (snd a) (snd y) && negb (Qeq_bool (snd a) (snd y)))
      eqn:C.
    + injection H as <- _. apply key_under in C.
      exists (a :: l1), l2. repeat split; [constructor; assumption | assumption].
    + injection H as <- _. apply key_not_under in C.
      exists [], (l1 ++ y :: l2). repeat split; [constructor|].
      apply Forall_app. split.
      * eapply Forall_impl; [|exact H1]. intros z Hz. simpl in Hz.
        apply Qlt_le_weak. eapply Qlt_le_trans; eassumption.
      * constructor; [exact C|].
        eapply Forall_impl; [|exact H2]. intros z Hz. simpl in Hz.
        eapply Qle_trans; eassumption.
Qed.

Lemma with_mtime_spec (os : OS) (files : list string) :
  forall keyed : list (string * Q),
  App.with_mtime os files = Some keyed ->
  map fst keyed = files
  /\ Forall (fun ft => getmtime os (path_join os (fst ft)) = Some (snd ft))
            keyed.
Proof.
  induction files as [|f r IH]; intros keyed H; simpl in H.
  - injection H as <-. split; constructor.
  - destruct (getmtime os (path_join os f)) as [t|] eqn:Ht; [|discriminate].
    destruct (App.with_mtime os r) as [l|]; [|discriminate].
    injection H as <-. destruct (IH l eq_refl) as [H1 H2].
    split; [simpl; now rewrite H1 | constructor; assumption].
Qed.

Lemma with_mtime_none (os : OS) (files : list string) :
  App.with_mtime os files = None
  <-> exists f, In f files /\ getmtime os (path_join os f) = None.
Proof.
  induction files as [|f r IH]; simpl.
  - split; [discriminate | intros (f & [] & _)].
  - destruct (getmtime os (path_join os f)) as [t|] eqn:Ht.
    + destruct (App.with_mtime os r) as [l|].
      * split; [discriminate|]. intros (g & [<-|Hg] & Hn); [congruence|].
        assert (None = None :> option (list (string * Q))) as _ by reflexivity.
        destruct IH as [_ IH]. discriminate IH. now exists g.
      * split; [|reflexivity]. intros _. destruct IH as [IH _].
        destruct (IH eq_refl) as (g & Hg & Hn). exists g. auto.
    + split; [|reflexivity]. intros _. exists f. auto.
Qed.

(** X1.  app.py [find_latest_journal]: the path it returns is that of a
    journal file of the directory; every journal file listed before it is
    strictly older, and every journal file listed after it is as old or
    older. *)
Theorem app_latest_is_newest (os : OS) (p : string) :
  App.find_latest_journal os = Some p ->
  exists (names before after : list string) (f : string) (t : Q),
    listdir os = Some names
    /\ filter App.is_journal names = before ++ f :: after
    /\ App.is_journal f = true
    /\ p = path_join os f
    /\ getmtime os (path_join os f) = Some t
    /\ (forall g, In g before ->
        exists u, getmtime os (path_join os g) = Some u /\ (u < t)%Q)
    /\ (forall g, In g after ->
        exists u, getmtime os (path_join os g) = Some u /\ (u <= t)%Q).
Proof.
  unfold App.find_latest_journal. intros H.
  destruct (listdir os) as [names|]; [|discriminate].
  destruct (App.with_mtime os (filter App.is_journal names)) as [keyed|] eqn:K;
    [|discriminate].
  destruct (sort_desc keyed) as [|[f t] r] eqn:S; [discriminate|].
  injection H as <-.
  destruct (with_mtime_spec _ _ _ K) as [Hfst Hall].
  destruct (sort_desc_head _ _ _ S) as (k1 & k2 & -> & H1 & H2).
  rewrite map_app in Hfst. simpl in Hfst.
  apply Forall_app in Hall as [Ha1 Ha2].
  inversion Ha2 as [|? ? Hf Ha3]; subst. simpl in Hf.
  exists names, (map fst k1), (map fst k2), f, t.
  repeat split; auto.
  - assert (Hin : In f (filter App.is_journal names)).
    { rewrite <- Hfst. apply in_or_app. right. now left. }
    now apply filter_In in Hin.
  - intros g Hg. apply in_map_iff in Hg as ([g' u] & <- & Hin).
    exists u. split.
    + rewrite Forall_forall in Ha1. exact (Ha1 _ Hin).
    + rewrite Forall_forall in H1. exact (H1 _ Hin).
  - intros g Hg. apply in_map_iff in Hg as ([g' u] & <- & Hin).
    exists u. split.
    + rewrite Forall_forall in Ha3. exact (Ha3 _ Hin).
    + rewrite Forall_forall in H2. exact (H2 _ Hin).
Qed.

(** X2.  app.py [find_latest_journal] returns [None] exactly when the
    directory cannot be listed, when it lists no journal file, or when the
    modification time of one of its journal files cannot be read. *)
Theorem app_latest_none (os : OS) :
  App.find_latest_journal os = None
  <-> listdir os = None
      \/ exists names,
           listdir os = Some names
           /\ (filter App.is_journal names = []
               \/ exists f, In f (filter App.is_journal names)
                            /\ getmtime os (path_join os f) = None).
Proof.
  unfold App.find_latest_journal.
  destruct (listdir os) as [names|]; [|split; auto].
  destruct (App.with_mtime os (filter App.is_journal names)) as [keyed|] eqn:K.
  - destruct (sort_desc keyed) as [|[f t] r] eqn:S.
    + split; [|reflexivity]. intros _. right. exists names. split; [reflexivity|].
      left. apply sort_desc_nil in S. subst keyed.
      now destruct (with_mtime_spec _ _ _ K) as [<- _].
    + split; [discriminate|].
      intros [H|(names' & [= <-] & [H|H])]; [discriminate| |].
      * rewrite H in K. simpl in K. injection K as <-. discriminate.
      * apply with_mtime_none in H. congruence.
  - split; [|reflexivity]. intros _. right. exists names. split; [reflexivity|].
    right. now apply with_mtime_none.
Qed.

(** X3.  EDAT.py [find_latest_journal]: the path it returns is the tracked
    path, the first of the files among those with the greatest
    modification time; it leaves the rows and the announcements alone; and
    a second call on the same files returns the same path and changes
    nothing more. *)
Theorem edat_latest_stable (journal_files : option (list (string * Q)))
        (st : Edat.state) :
  let r := Edat.find_latest_journal journal_files st in
  Edat.find_latest_journal journal_files (snd r) = r
  /\ Edat.stats (snd r) = Edat.stats st
  /\ Edat.announced (snd r) = Edat.announced st
  /\ (forall p, fst r = Some p ->
      Edat.current_journal_path (snd r) = Some p
      /\ exists files before after t,
           journal_files = Some files
           /\ files = before ++ (p, t) :: after
           /\ Forall (fun y => (snd y < t)%Q) before
           /\ Forall (fun y => (snd y <= t)%Q) after).
Proof.
  unfold Edat.find_latest_journal.
  destruct journal_files as [files|];
    [|split; [|split; [|split]]; try reflexivity; discriminate].
  destruct (sort_desc files) as [|[latest t] rest] eqn:S;
    [split; [|split; [|split]]; try reflexivity; discriminate|].
  destruct (sort_desc_head _ _ _ S) as (l1 & l2 & E & H1 & H2).
  destruct (opt_eqb (Edat.current_journal_path st) (Some latest)) eqn:C;
    cbv zeta; simpl fst; simpl snd.
  - rewrite C. apply opt_eqb_eq in C.
    split; [reflexivity|]. split; [reflexivity|]. split; [reflexivity|].
    intros p H. rewrite C in H. injection H as <-.
    split; [exact C|]. exists files, l1, l2, t. auto.
  - simpl. rewrite String.eqb_refl.
    split; [reflexivity|]. split; [reflexivity|]. split; [reflexivity|].
    intros p H. injection H as <-.
    split; [reflexivity|]. exists files, l1, l2, t. auto.
Qed.

Lemma app_latest_is_newest_witness :
  App.find_latest_journal three_journals = Some "dir/Journal.2.log"
  /\ exists (names before after : list string) (f : string) (t : Q),
       listdir three_journals = Some names
       /\ filter App.is_journal names = before ++ f :: after
       /\ App.is_journal f = true
       /\ "dir/Journal.2.log" = path_join three_journals f
       /\ getmtime three_journals (path_join three_journals f) = Some t
       /\ (forall g, In g before ->
           exists u, getmtime three_journals (path_join three_journals g)
                     = Some u /\ (u < t)%Q)
       /\ (forall g, In g after ->
           exists u, getmtime three_journals (path_join three_journals g)
                     = Some u /\ (u <= t)%Q).
Proof.
  split; [reflexivity|].
  exact (app_latest_is_newest three_journals "dir/Journal.2.log" eq_refl).
Defined.

(* ===================================================================== *)
(** ** Reading the journal *)
(* ===================================================================== *)

Lemma switch_journal_current (os : OS) (latest : string) (st : App.state) :
  App.current_file (App.switch_journal os latest st) = Some latest.
Proof.
  unfold App.switch_journal.
  destruct (opt_eqb (Some latest) (App.current_file st)) eqn:E; [|reflexivity].
  apply opt_eqb_eq in E. now symmetry.
Qed.

Lemma switch_journal_same (os : OS) (latest : string) (st : App.state) :
  App.current_file st = Some latest -> App.switch_journal os latest st = st.
Proof.
  intros H. unfold App.switch_journal. rewrite H. simpl.
  now rewrite String.eqb_refl.
Qed.

Lemma skipn_past {A : Type} (n : nat) (l : list A) :
  List.length l <= n -> skipn n l = [].
Proof. intros H. now apply skipn_all2. Qed.

(** X4.  app.py [read_new_lines]: a second call, while the directory and
    the files are as they were at the first, returns no line and leaves
    the state as the first call left it: what was read is not read
    again. *)
Theorem app_read_once (decode : Py.bytes -> string) (os : OS) (st : App.state) :
  decode [] = "" ->
  App.read_new_lines decode os (snd (App.read_new_lines decode os st))
  = ([], snd (App.read_new_lines decode os st)).
Proof.
  intros Hdec. unfold App.read_new_lines.
  destruct (App.find_latest_journal os) as [latest|]; [|reflexivity].
  destruct (String.eqb latest ""); [reflexivity|].
  pose proof (switch_journal_current os latest st) as Hc.
  set (st1 := App.switch_journal os latest st) in *.
  destruct (read_bytes os latest) as [data|].
  - destruct (App.filter_lines _ (App.last_line st1)) as [out last].
    cbn [snd].
    set (pos := Nat.max (App.last_position st1) (List.length data)).
    rewrite (switch_journal_same os latest (App.set_read pos last st1))
      by exact Hc.
    cbn [App.set_read App.last_position App.last_line].
    rewrite skipn_past by (subst pos; lia).
    rewrite Hdec. simpl Py.readlines. cbn [App.filter_lines].
    replace (Nat.max pos (List.length data)) with pos by (subst pos; lia).
    reflexivity.
  - cbn [snd]. now rewrite (switch_journal_same os latest st1) by exact Hc.
Qed.

Lemma app_read_once_witness :
  Py.decode_ascii [] = ""
  /\ fst (App.read_new_lines Py.decode_ascii
            (journal_os journal_name result_bytes) app_started)
     = [result_line]
  /\ App.read_new_lines Py.decode_ascii (journal_os journal_name result_bytes)
       (snd (App.read_new_lines Py.decode_ascii
               (journal_os journal_name result_bytes) app_started))
     = ([], snd (App.read_new_lines Py.decode_ascii
                   (journal_os journal_name result_bytes) app_started)).
Proof.
  split; [reflexivity|]. split; [vm_compute; reflexivity|].
  exact (app_read_once Py.decode_ascii (journal_os journal_name result_bytes)
           app_started eq_refl).
Defined.

(** *** The lines app.py returns *)

Lemma lstrip_head (s : string) :
  match Py.lstrip s with
  | "" => True
  | String c _ => Py.isspace c = false
  end.
Proof.
  induction s as [|c r IH]; simpl; [exact I|].
  destruct (Py.isspace c) eqn:E; [exact IH | exact E].
Qed.

Lemma rstrip_rstrip (s : string) : Py.rstrip (Py.rstrip s) = Py.rstrip s.
Proof.
  induction s as [|c r IH]; [reflexivity|].
  simpl. destruct (Py.rstrip r) as [|c' r'] eqn:E.
  - destruct (Py.isspace c) eqn:S; [reflexivity|].
    simpl. now rewrite S.
  - change (Py.rstrip (String c (String c' r')))
      with (match Py.rstrip (String c' r') with
            | "" => if Py.isspace c then "" else String c ""
            | String a b => String c (String a b)
            end).
    now rewrite IH.
Qed.

Lemma lstrip_rstrip (c : ascii) (r : string) :
  Py.isspace c = false ->
  Py.lstrip (Py.rstrip (String c r)) = Py.rstrip (String c r).
Proof.
  intros H. simpl Py.rstrip.
  destruct (Py.rstrip r); rewrite ?H; simpl; now rewrite H.
Qed.

Lemma strip_strip (s : string) : Py.strip (Py.strip s) = Py.strip s.
Proof.
  unfold Py.strip. pose proof (lstrip_head s) as H.
  destruct (Py.lstrip s) as [|c r]; [reflexivity|].
  now rewrite (lstrip_rstrip c r H), rstrip_rstrip.
Qed.

Lemma filter_lines_out (lines : list string) :
  forall (last : option string) (l : string),
  In l (fst (App.filter_lines lines last)) ->
  l <> "" /\ exists raw, In raw lines /\ l = Py.strip raw.
Proof.
  induction lines as [|x r IH]; intros last l; [intros []|].
  rewrite filter_lines_cons.
  destruct (String.eqb (Py.strip x) "" || opt_eqb (Some (Py.strip x)) last)
    eqn:E.
  - intros H. destruct (IH _ _ H) as (H1 & raw & H2 & H3).
    split; [exact H1|]. exists raw. split; [now right | exact H3].
  - specialize (IH (Some (Py.strip x)) l).
    destruct (App.filter_lines r (Some (Py.strip x))) as [out last'].
    simpl. intros [<-|H].
    + apply orb_false_elim in E as [E _]. apply String.eqb_neq in E.
      split; [exact E|]. exists x. split; [now left | reflexivity].
    + destruct (IH H) as (H1 & raw & H2 & H3).
      split; [exact H1|]. exists raw. split; [now right | exact H3].
Qed.

(** X5.  app.py [read_new_lines]: every line it returns is not empty and
    has no white space at its start or at its end. *)
Theorem app_lines_stripped (decode : Py.bytes -> string) (os : OS)
        (st : App.state) (l : string) :
  In l (fst (App.read_new_lines decode os st)) ->
  l <> "" /\ Py.strip l = l.
Proof.
  unfold App.read_new_lines.
  destruct (App.find_latest_journal os) as [latest|]; [|intros []].
  destruct (String.eqb latest ""); [intros []|].
  destruct (read_bytes os latest) as [data|]; [|intros []].
  match goal with
  | |- context [App.filter_lines ?ls ?la] =>
      pose proof (filter_lines_out ls la l) as H;
      destruct (App.filter_lines ls la) as [out last']
  end.
  simpl in *. intros Hin. destruct (H Hin) as (H1 & raw & _ & ->).
  split; [exact H1 | apply strip_strip].
Qed.

Lemma app_lines_stripped_witness :
  In "{1}" (fst (App.read_new_lines Py.decode_ascii
                   (journal_os journal_name
                      (list_byte_of_string (Py.eol "  {1} ^$$  {2}")))
                   app_started))
  /\ "{1}" <> "" /\ Py.strip "{1}" = "{1}".
Proof.
  assert (H : In "{1}" (fst (App.read_new_lines Py.decode_ascii
                   (journal_os journal_name
                      (list_byte_of_string (Py.eol "  {1} ^$$  {2}")))
                   app_started))) by (vm_compute; now left).
  split; [exact H|].
  exact (app_lines_stripped Py.decode_ascii _ app_started "{1}" H).
Defined.

(* ===================================================================== *)
(** ** EDAT.py: reading the journal *)
(* ===================================================================== *)

Lemma assemble_frame (content : string) (st : Edat.state) :
  same_but_line st (snd (Edat.assemble content st)).
Proof.
  unfold Edat.assemble.
  destruct (Py.splitlines content) as [|first rest];
    [apply same_but_line_refl|].
  destruct (negb (String.eqb (Edat.last_line st) ""));
    destruct (negb (Py.endswith content (String Py.LF "")));
    repeat split.
Qed.

(** The offset after a read. *)
Lemma read_lines_frame (decode : Py.bytes -> string) (os : OS)
      (st : Edat.state) :
  let st' := snd (Edat.read_lines decode os st) in
  Edat.current_journal_path st' = Edat.current_journal_path st
  /\ Edat.stats st' = Edat.stats st
  /\ Edat.announced st' = Edat.announced st
  /\ Edat.last_position st'
     = match Edat.current_journal_path st with
       | Some path =>
           if String.eqb path "" then Edat.last_position st
           else match read_bytes os path with
                | Some data =>
                    Nat.max (Edat.last_position st) (List.length data)
                | None => Edat.last_position st
                end
       | None => Edat.last_position st
       end.
Proof.
  unfold Edat.read_lines.
  destruct (Edat.current_journal_path st) as [path|] eqn:Hp;
    [|cbv zeta; simpl; auto].
  destruct (String.eqb path ""); [cbv zeta; simpl; auto|].
  destruct (read_bytes os path) as [data|]; [|cbv zeta; simpl; auto].
  destruct (Nat.leb_spec (List.length data) (Edat.last_position st))
    as [Hle|Hlt].
  - cbv zeta. simpl. repeat split; auto. lia.
  - pose proof (assemble_frame
                  (decode (skipn (Edat.last_position st) data))
                  (Edat.set_position (List.length data) st))
      as (F1 & F2 & F3 & F4).
    cbv zeta. rewrite F1, F2, F3, F4. simpl. repeat split; auto. lia.
Qed.

Lemma read_lines_again (decode : Py.bytes -> string) (os : OS)
      (st : Edat.state) :
  Edat.read_lines decode os (snd (Edat.read_lines decode os st))
  = ([], snd (Edat.read_lines decode os st)).
Proof.
  pose proof (read_lines_frame decode os st) as (F1 & _ & _ & F4).
  cbv zeta in F1, F4.
  set (st' := snd (Edat.read_lines decode os st)) in *.
  unfold Edat.read_lines at 1. rewrite F1.
  destruct (Edat.current_journal_path st) as [path|]; [|reflexivity].
  destruct (String.eqb path ""); [reflexivity|].
  destruct (read_bytes os path) as [data|]; [|reflexivity].
  destruct (Nat.leb_spec (List.length data) (Edat.last_position st'));
    [reflexivity | lia].
Qed.

(** X7.  EDAT.py [read_new_journal_entries]: the offset does not go back;
    when the tracked file can be read, the offset is then at the end of
    the file or past it; the tracked path, the rows and the announcements
    are as they were.  A second call, while the file is as it was at the
    first, returns nothing and changes nothing. *)
Theorem edat_read_once (decode : Py.bytes -> string)
        (json_loads : string -> Json.decoded) (os : OS) (st : Edat.state) :
  let r := Edat.read_new_journal_entries decode json_loads os st in
  Edat.last_position st <= Edat.last_position (snd r)
  /\ (forall path data,
      Edat.current_journal_path st = Some path -> path <> "" ->
      read_bytes os path = Some data ->
      Edat.last_position (snd r)
      = Nat.max (Edat.last_position st) (List.length data))
  /\ Edat.current_journal_path (snd r) = Edat.current_journal_path st
  /\ Edat.stats (snd r) = Edat.stats st
  /\ Edat.announced (snd r) = Edat.announced st
  /\ Edat.read_new_journal_entries decode json_loads os (snd r) = ([], snd r).
Proof.
  pose proof (read_lines_frame decode os st) as (F1 & F2 & F3 & F4).
  pose proof (read_lines_again decode os st) as A.
  assert (S : snd (Edat.read_new_journal_entries decode json_loads os st)
              = snd (Edat.read_lines decode os st)).
  { unfold Edat.read_new_journal_entries.
    destruct (Edat.read_lines decode os st) as [ls st'].
    now destruct (Edat.parse_entries json_loads ls). }
  cbv zeta in *. rewrite S.
  set (st' := snd (Edat.read_lines decode os st)) in *.
  split; [|split; [|split; [|split; [|split]]]]; auto.
  - rewrite F4. destruct (Edat.current_journal_path st) as [path|]; [|lia].
    destruct (String.eqb path ""); [lia|].
    destruct (read_bytes os path); lia.
  - intros path data Hp Hne Hr. rewrite F4, Hp.
    destruct (String.eqb_spec path ""); [contradiction|]. now rewrite Hr.
  - unfold Edat.read_new_journal_entries. now rewrite A.
Qed.

Lemma parse_entries_app (json_loads : string -> Json.decoded)
      (l1 l2 : list string) :
  Edat.parse_entries json_loads (l1 ++ l2)
  = both (Edat.parse_entries json_loads l1) (Edat.parse_entries json_loads l2).
Proof.
  induction l1 as [|x r IH].
  - simpl. now destruct (Edat.parse_entries json_loads l2).
  - simpl. destruct (String.eqb (Py.strip x) ""); [exact IH|].
    destruct (json_loads x); [|exact IH|reflexivity].
    rewrite IH.
    destruct (Edat.parse_entries json_loads r),
             (Edat.parse_entries json_loads l2); reflexivity.
Qed.

(** X8.  EDAT.py, the parsing of the lines of a read.  A blank line, or a
    line at which the decoder raises [json.JSONDecodeError], gives no
    entry and does not keep the other lines from being parsed; a line
    that decodes gives its value, at its place.  A line that is not
    blank and at which the decoder raises another exception makes the
    whole read return no entry at all, and the offset is where the read
    has set it. *)
Theorem edat_parse_skips (decode : Py.bytes -> string)
        (json_loads : string -> Json.decoded)
        (before after : list string) (line : string)
        (os : OS) (st : Edat.state) :
  (Py.strip line = "" \/ json_loads line = Json.JSONDecodeError ->
   Edat.parse_entries json_loads (before ++ line :: after)
   = both (Edat.parse_entries json_loads before)
          (Edat.parse_entries json_loads after))
  /\ (forall entry, Py.strip line <> "" -> json_loads line = Json.Ok entry ->
      Edat.parse_entries json_loads (before ++ line :: after)
      = both (Edat.parse_entries json_loads before)
             (both (Some [entry]) (Edat.parse_entries json_loads after)))
  /\ (Py.strip line <> "" -> json_loads line = Json.OtherError ->
      Edat.parse_entries json_loads (before ++ line :: after) = None)
  /\ (Py.strip line <> "" -> json_loads line = Json.OtherError ->
      fst (Edat.read_lines decode os st) = before ++ line :: after ->
      Edat.read_new_journal_entries decode json_loads os st
      = ([], snd (Edat.read_lines decode os st))).
Proof.
  assert (G : Py.strip line <> "" -> json_loads line = Json.OtherError ->
              Edat.parse_entries json_loads (before ++ line :: after) = None).
  { intros Hs Hl. rewrite parse_entries_app. simpl.
    apply String.eqb_neq in Hs. rewrite Hs, Hl.
    now destruct (Edat.parse_entries json_loads before). }
  split; [|split; [|split]].
  - rewrite parse_entries_app. simpl. intros [H|H].
    + now rewrite H.
    + rewrite H. now destruct (String.eqb (Py.strip line) "").
  - intros entry Hs Hl. rewrite parse_entries_app. simpl.
    apply String.eqb_neq in Hs. rewrite Hs, Hl.
    now destruct (Edat.parse_entries json_loads after).
  - exact G.
  - intros Hs Hl E. unfold Edat.read_new_journal_entries.
    destruct (Edat.read_lines decode os st) as [ls st']. simpl in *.
    subst ls. now rewrite (G Hs Hl).
Qed.

Lemma edat_parse_skips_witness :
  Json.loads "{oops" = Json.JSONDecodeError
  /\ Edat.parse_entries Json.loads (["1"] ++ "{oops" :: ["2"])
     = Some [Json.JInt 1; Json.JInt 2]
  /\ Json.loads long_integer = Json.OtherError
  /\ fst (Edat.read_lines Py.decode_ascii
            (journal_os journal_name long_integer_journal)
            (tracking journal_name))
     = ["1"] ++ long_integer :: ["2"]
  /\ Edat.read_new_journal_entries Py.decode_ascii Json.loads
       (journal_os journal_name long_integer_journal) (tracking journal_name)
     = ([], snd (Edat.read_lines Py.decode_ascii
                   (journal_os journal_name long_integer_journal)
                   (tracking journal_name))).
Proof.
  pose proof (edat_parse_skips Py.decode_ascii Json.loads ["1"] ["2"] "{oops"
                (journal_os journal_name []) Edat.initial) as (H1 & _).
  pose proof (edat_parse_skips Py.decode_ascii Json.loads ["1"] ["2"]
                long_integer
                (journal_os journal_name long_integer_journal)
                (tracking journal_name)) as (_ & _ & _ & H4).
  assert (L : Json.loads long_integer = Json.OtherError)
    by (vm_compute; reflexivity).
  assert (R : fst (Edat.read_lines Py.decode_ascii
                     (journal_os journal_name long_integer_journal)
                     (tracking journal_name))
              = ["1"] ++ long_integer :: ["2"])
    by (vm_compute; reflexivity).
  split; [reflexivity|].
  split; [rewrite (H1 (or_intror eq_refl)); reflexivity|].
  split; [exact L|]. split; [exact R|].
  apply H4; [vm_compute; discriminate | exact L | exact R].
Defined.

(* ===================================================================== *)
(** ** EDAT.py: processing an entry *)
(* ===================================================================== *)

Lemma scan_materials_frame (now : string) (targets : list (string * Q))
      (ms : list (string * Json.json)) (rem : Json.json)
      (mats : list Json.json) (st : Edat.state) :
  match Edat.scan_materials now targets ms rem mats st with
  | (st', Some true) => exists msg row, st' = edat_after [msg] [row] st
  | (st', Some false) => st' = st
  | (st', None) =>
      st' = st
      \/ exists row,
           st' = edat_after [] [row] st
           /\ Json.number (Edat.proportion row) = Some Py.PosInf
  end.
Proof.
  induction mats as [|m r IH]; [reflexivity|].
  destruct m as [| | | | | |mat]; try (now left).
  cbn [Edat.scan_materials].
  set (prop := Json.get "Proportion" (Json.JFloat (S754_zero false)) mat).
  unfold Edat.valuable.
  destruct (Json.get "Name" (Json.JStr "") mat) as [| | | |n| |];
    try exact IH; try (now left).
  destruct (Py.dict_get n targets) as [t|]; [|exact IH].
  destruct (Json.number prop) as [v|] eqn:Hv; [|now left].
  destruct (Py.le (Py.Num t) v) eqn:Hle; [|exact IH].
  destruct (Edat.rounded prop) as [k|] eqn:Hr.
  - eexists _, _. destruct st. reflexivity.
  - right. eexists. split.
    + destruct st. unfold edat_after, Edat.record_asteroid. simpl.
      rewrite app_nil_r. reflexivity.
    + simpl. rewrite Hv. f_equal.
      destruct prop as [| | |f| | |]; try discriminate.
      unfold Edat.rounded, Py.round in Hr. simpl in Hv.
      injection Hv as <-.
      destruct (Py.float_value f); try discriminate; reflexivity.
Qed.

(** X9.  EDAT.py [process_asteroid], for any entry at all.  Either it
    returns [True], and it has recorded one row and started one
    announcement; or it returns something else and the state is as it
    was; or it returns [False] and has recorded one row without
    announcing it, which happens only for a proportion that is an
    infinity.  No entry makes it announce without recording, announce or
    record twice, or move the cursor. *)
Theorem edat_process_all_or_nothing (now : string)
        (targets : list (string * Q)) (entry : Json.json) (st : Edat.state) :
  let '(st', result) := Edat.process_asteroid now targets entry st in
  (result = Some true /\ exists msg row, st' = edat_after [msg] [row] st)
  \/ (result <> Some true /\ st' = st)
  \/ (result = Some false
      /\ exists row,
           st' = edat_after [] [row] st
           /\ Json.number (Edat.proportion row) = Some Py.PosInf).
Proof.
  unfold Edat.process_asteroid.
  destruct entry as [| | | | | |ms];
    try (right; left; split; [discriminate|reflexivity]).
  destruct (negb (Json.eq_str _ _));
    [right; left; split; [discriminate|reflexivity]|].
  destruct (Json.number _) as [r|];
    [|right; left; split; [discriminate|reflexivity]].
  destruct (Py.lt r (Py.Num 100));
    [right; left; split; [discriminate|reflexivity]|].
  destruct (Json.iter _) as [mats|];
    [|right; left; split; [discriminate|reflexivity]].
  pose proof (scan_materials_frame now targets ms
                (Json.get "Remaining" (Json.JInt 0) ms) mats st) as H.
  destruct (Edat.scan_materials _ _ _ _ _ _) as [st' [[|]|]].
  - left. split; [reflexivity | exact H].
  - right. left. split; [discriminate | exact H].
  - destruct H as [H|H].
    + right. left. split; [discriminate | exact H].
    + right. right. split; [reflexivity | exact H].
Qed.

(** X10.  EDAT.py [process_asteroid]: an entry without the member
    [Remaining], or whose remaining content is not a number, is never
    announced nor recorded, whatever its materials are. *)
Theorem edat_needs_remaining (now : string) (targets : list (string * Q))
        (ms : list (string * Json.json)) (st : Edat.state) :
  Json.lookup "Remaining" ms = None
  \/ Json.number (Json.get "Remaining" (Json.JInt 0) ms) = None ->
  fst (Edat.process_asteroid now targets (Json.JObj ms) st) = st.
Proof.
  intros H. unfold Edat.process_asteroid.
  destruct (negb (Json.eq_str _ _)); [reflexivity|].
  destruct H as [H|H].
  - unfold Json.get. rewrite H. reflexivity.
  - rewrite H. reflexivity.
Qed.

Lemma edat_needs_remaining_witness :
  Json.loads no_remaining_line = Json.Ok (Json.JObj no_remaining_members)
  /\ Json.lookup "Remaining" no_remaining_members = None
  /\ fst (Edat.process_asteroid "now" default_targets
            (Json.JObj no_remaining_members) Edat.initial)
     = Edat.initial.
Proof.
  split; [vm_compute; reflexivity|]. split; [reflexivity|].
  exact (edat_needs_remaining "now" default_targets no_remaining_members
           Edat.initial (or_introl eq_refl)).
Defined.

Lemma process_entries_app (now : string) (targets : list (string * Q))
      (l1 l2 : list Json.json) :
  forall st : Edat.state,
  Edat.process_entries now targets (l1 ++ l2) st
  = let '(st1, ok) := Edat.process_entries now targets l1 st in
    if ok then Edat.process_entries now targets l2 st1 else (st1, false).
Proof.
  induction l1 as [|e r IH]; intros st; [reflexivity|].
  destruct e as [| | | | | |ms]; try reflexivity.
  simpl. destruct (Json.eq_str _ _); apply IH.
Qed.

(** X11.  EDAT.py, the loop over the entries of a read: an entry that is
    not a dict, a number or a list say, ends the loop with the exception
    it raises; the entries after it are not processed. *)
Theorem edat_entries_stop (now : string) (targets : list (string * Q))
        (before after : list Json.json) (bad : Json.json) (st : Edat.state) :
  (forall ms, bad <> Json.JObj ms) ->
  Edat.process_entries now targets (before ++ bad :: after) st
  = (fst (Edat.process_entries now targets before st), false).
Proof.
  intros Hbad. rewrite process_entries_app.
  destruct (Edat.process_entries now targets before st) as [st1 [|]];
    [|reflexivity].
  destruct bad as [| | | | | |ms]; try reflexivity.
  now elim (Hbad ms).
Qed.

Lemma edat_entries_stop_witness :
  (forall ms, Json.JInt 5 <> Json.JObj ms)
  /\ Edat.process_entries "now" default_targets
       ([] ++ Json.JInt 5 :: [Json.JObj prospect_members]) Edat.initial
     = (Edat.initial, false)
  /\ fst (Edat.process_entries "now" default_targets
            [Json.JObj prospect_members] Edat.initial) <> Edat.initial.
Proof.
  assert (H : forall ms, Json.JInt 5 <> Json.JObj ms) by discriminate.
  split; [exact H|]. split.
  - exact (edat_entries_stop "now" default_targets [] [Json.JObj prospect_members]
             (Json.JInt 5) Edat.initial H).
  - vm_compute. discriminate.
Defined.

(* ===================================================================== *)
(** ** app.py: what the handlers change *)
(* ===================================================================== *)

Lemma process_material_frame (str_of : Json.json -> string)
      (th : list (string * Q)) (ts mat : Json.json) (st st' : App.state) :
  App.process_material str_of th ts mat st = Some st' ->
  exists msgs rows,
    st' = app_after msgs rows st
    /\ List.length msgs <= List.length rows.
Proof.
  unfold App.process_material.
  destruct mat as [| | | | | |ms]; try discriminate.
  destruct (negb (Json.truthy _)).
  - intros [= <-]. exists [], []. split; [now rewrite app_after_nil | auto].
  - destruct (App.to_percent _) as [p|]; [|discriminate].
    destruct (App.threshold_of th _) as [t|]; [|discriminate].
    intros [= <-]. destruct (App.alert t p).
    + eexists [_], [_]. split; [|auto]. destruct st; reflexivity.
    + eexists [], [_]. split; [|simpl; lia]. destruct st.
      unfold app_after, App.add_material. simpl. now rewrite app_nil_r.
Qed.

Lemma process_materials_frame (str_of : Json.json -> string)
      (th : list (string * Q)) (ts : Json.json) (mats : list Json.json) :
  forall st : App.state,
  exists msgs rows,
    fst (App.process_materials str_of th ts mats st) = app_after msgs rows st
    /\ List.length msgs <= List.length rows.
Proof.
  induction mats as [|m r IH]; intros st.
  - exists [], []. split; [simpl; now rewrite app_after_nil | auto].
  - cbn [App.process_materials].
    destruct (App.process_material str_of th ts m st) as [st1|] eqn:E.
    + apply process_material_frame in E as (m1 & r1 & -> & L1).
      destruct (IH (app_after m1 r1 st)) as (m2 & r2 & -> & L2).
      exists (m1 ++ m2), (r1 ++ r2). rewrite app_after_after.
      split; [reflexivity|]. rewrite !length_app. lia.
    + exists [], []. split; [simpl; now rewrite app_after_nil | auto].
Qed.

Lemma for_materials_frame (str_of : Json.json -> string)
      (th : list (string * Q)) (ts materials : Json.json) (st : App.state) :
  exists msgs rows,
    fst (App.for_materials str_of th ts materials st) = app_after msgs rows st
    /\ List.length msgs <= List.length rows.
Proof.
  unfold App.for_materials. destruct (Json.iter materials) as [mats|].
  - apply process_materials_frame.
  - exists [], []. split; [simpl; now rewrite app_after_nil | auto].
Qed.

Lemma handle_mining_frame
    (json_loads : string -> Json.decoded) (str_of : Json.json -> string)
    (now : string) (thresholds : list (string * Q))
    (line : string) (st : App.state) :
  exists msgs rows,
    fst (App.handle_mining json_loads str_of now thresholds line st)
    = app_after msgs rows st
    /\ List.length msgs <= List.length rows.
Proof.
  assert (Hnone : exists msgs rows,
             st = app_after msgs rows st
             /\ List.length msgs <= List.length rows).
  { exists [], []. split; [now rewrite app_after_nil | auto]. }
  unfold App.handle_mining.
  destruct (negb (Py.contains App.EVENT_PROSPECTED line)); [exact Hnone|].
  destruct (json_loads line) as [data| |]; [| |exact Hnone].
  - unfold App.handle_mining_json.
    destruct data as [| | | | | |ms]; try exact Hnone.
    destruct (negb (Json.eq_str _ _)); [exact Hnone|].
    destruct (negb (Json.truthy _)); [exact Hnone|].
    apply for_materials_frame.
  - unfold App.handle_mining_regex.
    destruct (Re.search_materials line) as [frag|]; [|exact Hnone].
    destruct (json_loads frag) as [materials| |]; try exact Hnone.
    apply for_materials_frame.
Qed.

(** X12.  app.py [handle_mining], for any line at all and whatever the
    decoder returns: it only adds announcements at the end of the queue
    and rows at the end of the stored data, it adds no more announcements
    than rows, and it leaves the tracked file, the offset and the
    remembered line alone. *)
Theorem app_mining_appends
    (json_loads : string -> Json.decoded) (str_of : Json.json -> string)
    (now : string) (thresholds : list (string * Q))
    (line : string) (st : App.state) :
  exists msgs rows,
    fst (App.handle_mining json_loads str_of now thresholds line st)
    = app_after msgs rows st
    /\ List.length msgs <= List.length rows.
Proof. apply handle_mining_frame. Qed.

Lemma handle_message_frame
    (json_loads : string -> Json.decoded) (str_of : Json.json -> string)
    (line : string) (st : App.state) :
  (snd (App.handle_message json_loads str_of line st) = true
   /\ exists msg,
        fst (App.handle_message json_loads str_of line st)
        = app_after [msg] [] st)
  \/ (snd (App.handle_message json_loads str_of line st) = false
      /\ fst (App.handle_message json_loads str_of line st) = st).
Proof.
  assert (Hone : forall msg,
             App.tts_speak msg st = app_after [msg] [] st).
  { intros msg. destruct st. unfold app_after, App.tts_speak, App.speak.
    simpl. now rewrite app_nil_r. }
  unfold App.handle_message, App.handle_message_json,
    App.handle_message_regex.
  repeat match goal with
         | |- context [match ?x with _ => _ end] => destruct x
         | |- context [if ?x then _ else _] => destruct x
         end;
    first [ right; split; reflexivity
          | left; split; [reflexivity | eexists; apply Hone] ].
Qed.

(** X13.  app.py [handle_message], for any line at all and whatever the
    decoder returns: either it returns [True] and has added one
    announcement at the end of the queue, or it returns [False] and the
    state is as it was. *)
Theorem app_message_one_or_none
    (json_loads : string -> Json.decoded) (str_of : Json.json -> string)
    (line : string) (st : App.state) :
  let '(st', handled) := App.handle_message json_loads str_of line st in
  (handled = true /\ exists msg, st' = app_after [msg] [] st)
  \/ (handled = false /\ st' = st).
Proof.
  pose proof (handle_message_frame json_loads str_of line st) as G.
  destruct (App.handle_message json_loads str_of line st) as [st' handled].
  exact G.
Qed.

Lemma process_line_frame
    (json_loads : string -> Json.decoded) (str_of : Json.json -> string)
    (now : string) (thresholds : list (string * Q))
    (line : string) (st : App.state) :
  exists msgs rows,
    App.process_line json_loads str_of now thresholds line st
    = app_after msgs rows st.
Proof.
  unfold App.process_line.
  destruct (handle_mining_frame json_loads str_of now thresholds line st)
    as (m1 & r1 & E & _).
  destruct (App.handle_mining json_loads str_of now thresholds line st)
    as [st1 handled]. simpl in E. subst st1.
  destruct handled; [now exists m1, r1|].
  pose proof (handle_message_frame json_loads str_of line
                (app_after m1 r1 st)) as H.
  destruct (App.handle_message json_loads str_of line (app_after m1 r1 st))
    as [st2 h]. simpl in *.
  destruct H as [[_ (msg & ->)]|[_ ->]].
  - exists (m1 ++ [msg]), (r1 ++ []). now rewrite app_after_after.
  - now exists m1, r1.
Qed.

(** X14.  app.py, one turn of the loop of [run], whatever the journal
    holds: all the handlers do to the queue and to the stored data is to
    add at their ends, and the tracked file, the offset and the
    remembered line are as the read left them. *)
Theorem app_poll_appends
    (json_loads : string -> Json.decoded) (str_of : Json.json -> string)
    (now : string) (thresholds : list (string * Q))
    (decode : Py.bytes -> string) (os : OS) (st : App.state) :
  exists msgs rows,
    App.poll json_loads str_of now thresholds decode os st
    = app_after msgs rows (snd (App.read_new_lines decode os st)).
Proof.
  unfold App.poll.
  destruct (App.read_new_lines decode os st) as [lines st1]. simpl snd.
  unfold App.process_lines. revert st1.
  induction lines as [|l r IH]; intros st1.
  - exists [], []. simpl. now rewrite app_after_nil.
  - simpl.
    destruct (process_line_frame json_loads str_of now thresholds l st1)
      as (m1 & r1 & ->).
    destruct (IH (app_after m1 r1 st1)) as (m2 & r2 & ->).
    exists (m1 ++ m2), (r1 ++ r2). now rewrite app_after_after.
Qed.

(* ===================================================================== *)
(** ** The speech workers *)
(* ===================================================================== *)

Lemma worker_turns (n : nat) :
  forall t : App.tts,
  List.length (App.queue t) <= n ->
  App.run (repeat App.Turn n) t
  = {| App.queue := [];
       App.said := App.said t ++ filter nonempty (App.queue t) |}.
Proof.
  induction n as [|n IH]; intros [q s] H; simpl in H.
  - destruct q; [|simpl in H; lia]. simpl. now rewrite app_nil_r.
  - change (App.run (repeat App.Turn (S n)) {| App.queue := q; App.said := s |})
      with (App.run (repeat App.Turn n)
              (App.worker_turn {| App.queue := q; App.said := s |})).
    destruct q as [|x q].
    + rewrite IH by (simpl; lia). reflexivity.
    + unfold App.worker_turn. cbn [App.queue App.said].
      rewrite IH by (simpl in *; lia). cbn [App.queue App.said filter].
      unfold nonempty at 2. destruct (String.eqb x ""); simpl;
        [reflexivity | now rewrite <- app_assoc].
Qed.

(** X15.  app.py, the speech worker: when no text is queued in between, as
    many turns of the worker as the queue has texts, or more, empty the
    queue, and the worker has then handed every text of the queue that is
    not empty to the engine, in the order of the queue. *)
Theorem worker_drains (n : nat) (t : App.tts) :
  List.length (App.queue t) <= n ->
  App.queue (App.run (repeat App.Turn n) t) = []
  /\ App.said (App.run (repeat App.Turn n) t)
     = App.said t ++ filter nonempty (App.queue t).
Proof. intros H. now rewrite (worker_turns n t H). Qed.

Lemma worker_drains_witness :
  List.length (App.queue {| App.queue := ["a"; ""; "b"]; App.said := ["z"] |})
  <= 3
  /\ App.said (App.run (repeat App.Turn 3)
                 {| App.queue := ["a"; ""; "b"]; App.said := ["z"] |})
     = ["z"; "a"; "b"].
Proof.
  split; [simpl; lia|].
  exact (proj2 (worker_drains 3
                  {| App.queue := ["a"; ""; "b"]; App.said := ["z"] |}
                  ltac:(simpl; lia))).
Defined.

Lemma nth_error_split_perm {A : Type} (l : list A) :
  forall (i : nat) (x : A),
  nth_error l i = Some x ->
  Permutation (x :: firstn i l ++ skipn (S i) l) l.
Proof.
  induction l as [|y r IH]; intros [|i] x H; try discriminate.
  - injection H as <-. reflexivity.
  - simpl in H. simpl. rewrite perm_swap. constructor. now apply IH.
Qed.

Lemma edat_step_perm (s : Edat.speech) (a : Edat.action) :
  Permutation (Edat.said (Edat.step s a) ++ Edat.threads (Edat.step s a))
              (Edat.said s ++ Edat.threads s
               ++ match a with Edat.Start text => [text] | Edat.Say _ => [] end).
Proof.
  destruct a as [text|i]; simpl.
  - reflexivity.
  - rewrite app_nil_r.
    destruct (nth_error (Edat.threads s) i) as [text|] eqn:E; [|reflexivity].
    simpl. rewrite <- app_assoc. apply Permutation_app_head.
    simpl. now apply nth_error_split_perm.
Qed.

(** X16.  EDAT.py, the speech threads: in whatever order the threads are
    let run, the texts the engine was given and the texts of the threads
    still waiting are together the texts given to [speak_text], each as
    often as it was given: no announcement is lost and none is said
    twice. *)
Theorem edat_speech_complete (actions : list Edat.action) :
  Permutation
    (Edat.said (Edat.run actions Edat.idle)
     ++ Edat.threads (Edat.run actions Edat.idle))
    (started actions).
Proof.
  assert (G : forall s,
             Permutation
               (Edat.said (Edat.run actions s) ++ Edat.threads (Edat.run actions s))
               (Edat.said s ++ Edat.threads s ++ started actions)).
  { induction actions as [|a r IH]; intros s.
    - simpl. now rewrite app_nil_r.
    - change (Edat.run (a :: r) s) with (Edat.run r (Edat.step s a)).
      rewrite IH, app_assoc, edat_step_perm.
      destruct a; simpl; rewrite <- ?app_assoc; [reflexivity|].
      now rewrite app_nil_l. }
  exact (G Edat.idle).
Qed.

(* ===================================================================== *)
(** ** The patterns of the fallback *)
(* ===================================================================== *)

Lemma search_found (here : string -> option string) (s g : string) :
  Re.search here s = Some g -> exists s', here s' = Some g.
Proof.
  induction s as [|c r IH]; simpl.
  - destruct (here "") eqn:E; [intros [= <-]; now exists "" | discriminate].
  - destruct (here (String c r)) eqn:E.
    + intros [= <-]. now exists (String c r).
    + exact IH.
Qed.

Lemma until_quote_lacks (s g : string) :
  Re.until_quote s = Some g -> lacks Py.DQ g = true.
Proof.
  revert g. induction s as [|c r IH]; intros g; [discriminate|]. simpl.
  destruct (Ascii.eqb c Py.DQ) eqn:E; [now intros [= <-]|].
  destruct (Re.until_quote r) as [g'|]; [|discriminate].
  intros [= <-]. unfold lacks. simpl. rewrite E. exact (IH g' eq_refl).
Qed.

Lemma until_bracket_shape (s g : string) :
  Re.until_bracket s = Some g ->
  exists body, g = (body ++ "]")%string
               /\ lacks "]" body = true /\ lacks Py.LF body = true.
Proof.
  revert g. induction s as [|c r IH]; intros g; [discriminate|]. simpl.
  destruct (Ascii.eqb c "]") eqn:E1; [intros [= <-]; now exists ""|].
  destruct (Ascii.eqb c Py.LF) eqn:E2; [discriminate|].
  destruct (Re.until_bracket r) as [g'|]; [|discriminate].
  intros [= <-]. destruct (IH g' eq_refl) as (body & -> & H1 & H2).
  exists (String c body). unfold lacks in *. simpl. now rewrite E1, E2, H1, H2.
Qed.

(** X17.  app.py, the patterns of the fallback: the text a field pattern
    finds is not empty and holds no double quote; the text the materials
    pattern finds is an opening bracket, a text without closing bracket
    and without line feed, and a closing bracket, so an array is taken up
    to its first closing bracket only. *)
Theorem fallback_groups (key line g : string) :
  (Re.search_field key line = Some g -> g <> "" /\ lacks Py.DQ g = true)
  /\ (Re.search_materials line = Some g ->
      exists body, g = ("[" ++ body ++ "]")%string
                   /\ lacks "]" body = true /\ lacks Py.LF body = true).
Proof.
  split; intros H; apply search_found in H as (s' & H).
  - unfold Re.field_here in H.
    destruct (Re.key_colon key s') as [[|c r]|]; try discriminate.
    destruct (Ascii.eqb c Py.DQ); [|discriminate].
    destruct (Re.until_quote r) as [[|a g']|] eqn:E; try discriminate.
    injection H as <-. split; [discriminate|]. exact (until_quote_lacks _ _ E).
  - unfold Re.materials_here in H.
    destruct (Re.key_colon "Materials" s') as [[|c r]|]; try discriminate.
    destruct (Ascii.eqb_spec c "["); [subst c | now destruct c as [[] [] [] [] [] [] [] []]].
    destruct (Re.until_bracket r) as [g'|] eqn:E; [|discriminate].
    injection H as <-. destruct (until_bracket_shape _ _ E) as (body & -> & H1 & H2).
    now exists body.
Qed.

Lemma fallback_groups_witness :
  Re.search_field "Message" npc_line_cut = Some "hand over your cargo"
  /\ "hand over your cargo" <> ""
  /\ lacks Py.DQ "hand over your cargo" = true.
Proof.
  split; [reflexivity|].
  exact (proj1 (fallback_groups "Message" npc_line_cut "hand over your cargo")
           eq_refl).
Defined.

(* ===================================================================== *)
(** ** The two paths of the handlers *)
(* ===================================================================== *)

(** X18.  app.py [handle_mining]: when a line does not decode, and the
    patterns find in it the materials and the time stamp that a line
    that decodes has, the line that does not decode is handled as the
    line that decodes is: the same announcements, the same rows, the same
    result. *)
Theorem mining_fallback_agrees
    (json_loads : string -> Json.decoded) (str_of : Json.json -> string)
    (now : string) (thresholds : list (string * Q))
    (cut whole fragment t : string)
    (ms : list (string * Json.json)) (m : Json.json) (mats : list Json.json)
    (st : App.state) :
  Py.contains App.EVENT_PROSPECTED cut = true ->
  Py.contains App.EVENT_PROSPECTED whole = true ->
  json_loads cut = Json.JSONDecodeError ->
  json_loads whole = Json.Ok (Json.JObj ms) ->
  Json.eq_str (Json.get "event" Json.JNull ms) "ProspectedAsteroid" = true ->
  Json.get "Materials" (Json.JArr []) ms = Json.JArr (m :: mats) ->
  Json.get "timestamp" (Json.JStr now) ms = Json.JStr t ->
  Re.search_materials cut = Some fragment ->
  json_loads fragment = Json.Ok (Json.JArr (m :: mats)) ->
  Re.search_field "timestamp" cut = Some t ->
  App.handle_mining json_loads str_of now thresholds cut st
  = App.handle_mining json_loads str_of now thresholds whole st.
Proof.
  intros Hc Hw Lc Lw He Hm Ht Sm Lf St.
  unfold App.handle_mining, App.handle_mining_json, App.handle_mining_regex.
  rewrite Hc, Hw, Lc, Lw, He, Hm, Ht, Sm, Lf, St. reflexivity.
Qed.

Lemma mining_fallback_agrees_witness :
  Json.loads prospect_line_cut = Json.JSONDecodeError
  /\ Json.loads prospect_line = Json.Ok (Json.JObj prospect_members)
  /\ Re.search_field "timestamp" prospect_line_cut = Some "T1"
  /\ App.handle_mining Json.loads str_of_str "now" default_targets
       prospect_line_cut App.initial
     = App.handle_mining Json.loads str_of_str "now" default_targets
         prospect_line App.initial.
Proof.
  split; [vm_compute; reflexivity|].
  split; [vm_compute; reflexivity|].
  split; [reflexivity|].
  apply (mining_fallback_agrees Json.loads str_of_str "now" default_targets
           prospect_line_cut prospect_line
           (Py.q "[{'Name':'Platinum','Proportion':55.0},{'Name':'Gold','Proportion':60.5},{'Name':'Bromellite','Proportion':10.25}]")
           "T1" prospect_members
           (Json.JObj [("Name", Json.JStr "Platinum");
                       ("Proportion",
                        Json.JFloat (Py.float_of_decimal false 550 (-1)))])
           (tl prospect_materials));
    vm_compute; reflexivity.
Defined.

(** X19.  app.py [handle_message]: when a line does not decode, and the
    patterns find in it the sender, the text and the channel that a line
    that decodes has as strings, and the channel is the squadron in
    capitals or not, the line that does not decode is announced as the
    line that decodes is. *)
Theorem squadron_fallback_agrees
    (json_loads : string -> Json.decoded) (str_of : Json.json -> string)
    (cut whole sender message channel : string)
    (ms : list (string * Json.json)) (st : App.state) :
  (forall s, str_of (Json.JStr s) = s) ->
  Py.contains App.EVENT_RECEIVETEXT cut = true ->
  Py.contains App.EVENT_RECEIVETEXT whole = true ->
  json_loads cut = Json.JSONDecodeError ->
  json_loads whole = Json.Ok (Json.JObj ms) ->
  Json.eq_str (Json.get "event" Json.JNull ms) "ReceiveText" = true ->
  Json.get "From" (Json.JStr "Unknown") ms = Json.JStr sender ->
  Json.get "Message" (Json.JStr "") ms = Json.JStr message ->
  Json.get "Channel" (Json.JStr "") ms = Json.JStr channel ->
  Py.lower channel = "squadron" ->
  Re.search_field "From" cut = Some sender ->
  Re.search_field "Message" cut = Some message ->
  Re.search_field "Channel" cut = Some channel ->
  App.handle_message json_loads str_of cut st
  = App.handle_message json_loads str_of whole st.
Proof.
  intros Hs Hc Hw Lc Lw He Hf Hm Hch Hl Sf Sm Sc.
  unfold App.handle_message, App.handle_message_json, App.handle_message_regex.
  rewrite Hc, Hw, Lc, Lw, He, Hf, Hm, Hch, Sf, Sm, Sc, Hl, !Hs. reflexivity.
Qed.

Lemma squadron_fallback_agrees_witness :
  (forall s, str_of_str (Json.JStr s) = s)
  /\ Json.loads squadron_line_cut = Json.JSONDecodeError
  /\ App.handle_message Json.loads str_of_str squadron_line_cut App.initial
     = App.handle_message Json.loads str_of_str
         (squadron_line_cut ++ "}") App.initial.
Proof.
  split; [reflexivity|]. split; [vm_compute; reflexivity|].
  apply (squadron_fallback_agrees Json.loads str_of_str squadron_line_cut
           (squadron_line_cut ++ "}") "Bob" "o7" "squadron"
           [("timestamp", Json.JStr "T1"); ("event", Json.JStr "ReceiveText");
            ("From", Json.JStr "Bob"); ("Message", Json.JStr "o7");
            ("Channel", Json.JStr "squadron")]);
    try reflexivity; vm_compute; reflexivity.
Defined.

(* ===================================================================== *)
(** ** Thresholds *)
(* ===================================================================== *)

Lemma process_materials_silent (str_of : Json.json -> string)
      (th : list (string * Q)) (ts : Json.json) (mats : list Json.json) :
  (forall s, Py.dict_get s th = None) ->
  forall st : App.state,
  App.tts_queue (fst (App.process_materials str_of th ts mats st))
  = App.tts_queue st.
Proof.
  intros Hth. induction mats as [|m r IH]; intros st; [reflexivity|].
  cbn [App.process_materials].
  destruct (App.process_material str_of th ts m st) as [st1|] eqn:E;
    [|reflexivity].
  rewrite IH. unfold App.process_material in E.
  destruct m as [| | | | | |ms]; try discriminate.
  destruct (negb (Json.truthy _)); [now injection E as <-|].
  destruct (App.to_percent _) as [p|]; [|discriminate].
  destruct (App.threshold_of th _) as [t|] eqn:T; [|discriminate].
  injection E as <-.
  assert (t = None) as ->.
  { unfold App.threshold_of in T.
    destruct (Json.get "Name" (Json.JStr "") ms); try congruence;
      rewrite Hth in T; congruence. }
  reflexivity.
Qed.

(** X20.  Materials without a threshold are never announced: with
    thresholds that name no material at all, app.py [handle_mining]
    leaves the queue as it was for any line at all, and EDAT.py
    [process_asteroid] leaves the whole state as it was for any entry at
    all. *)
Theorem no_threshold_no_announcement
    (json_loads : string -> Json.decoded) (str_of : Json.json -> string)
    (now : string) (thresholds : list (string * Q))
    (line : string) (entry : Json.json) (a : App.state) (e : Edat.state) :
  (forall s, Py.dict_get s thresholds = None) ->
  App.tts_queue (fst (App.handle_mining json_loads str_of now thresholds line a))
  = App.tts_queue a
  /\ fst (Edat.process_asteroid now thresholds entry e) = e.
Proof.
  intros Hth. split.
  - assert (F : forall ts materials,
               App.tts_queue
                 (fst (App.for_materials str_of thresholds ts materials a))
               = App.tts_queue a).
    { intros ts materials. unfold App.for_materials.
      destruct (Json.iter materials); [|reflexivity].
      now apply process_materials_silent. }
    unfold App.handle_mining.
    destruct (negb (Py.contains App.EVENT_PROSPECTED line)); [reflexivity|].
    destruct (json_loads line) as [data| |]; [| |reflexivity].
    + unfold App.handle_mining_json.
      destruct data as [| | | | | |ms]; try reflexivity.
      destruct (negb (Json.eq_str _ _)); [reflexivity|].
      destruct (negb (Json.truthy _)); [reflexivity|]. apply F.
    + unfold App.handle_mining_regex.
      destruct (Re.search_materials line) as [frag|]; [|reflexivity].
      destruct (json_loads frag) as [materials| |]; try reflexivity.
      apply F.
  - unfold Edat.process_asteroid.
    destruct entry as [| | | | | |ms]; try reflexivity.
    destruct (negb (Json.eq_str _ _)); [reflexivity|].
    destruct (Json.number _) as [r|]; [|reflexivity].
    destruct (Py.lt r (Py.Num 100)); [reflexivity|].
    destruct (Json.iter _) as [mats|]; [|reflexivity].
    assert (G : forall st,
               fst (Edat.scan_materials now thresholds ms
                      (Json.get "Remaining" (Json.JInt 0) ms) mats st) = st).
    { induction mats as [|m r' IH]; intros st; [reflexivity|].
      destruct m as [| | | | | |mat]; try reflexivity.
      cbn [Edat.scan_materials]. unfold Edat.valuable.
      destruct (Json.get "Name" (Json.JStr "") mat);
        try reflexivity; try apply IH.
      rewrite Hth. apply IH. }
    specialize (G e).
    destruct (Edat.scan_materials _ _ _ _ _ _) as [st' [f|]]; exact G.
Qed.

Lemma no_threshold_no_announcement_witness :
  (forall s, Py.dict_get s (@nil (string * Q)) = None)
  /\ App.tts_queue
       (fst (App.handle_mining Json.loads str_of_str "now" [] prospect_line
               App.initial)) = []
  /\ List.length
       (App.df (fst (App.handle_mining Json.loads str_of_str "now" []
                       prospect_line App.initial))) = 3
  /\ fst (Edat.process_asteroid "now" [] (Json.JObj prospect_members)
            Edat.initial) = Edat.initial.
Proof.
  assert (H : forall s, Py.dict_get s (@nil (string * Q)) = None)
    by reflexivity.
  destruct (no_threshold_no_announcement Json.loads str_of_str "now" []
              prospect_line (Json.JObj prospect_members) App.initial
              Edat.initial H) as [H1 H2].
  split; [exact H|]. split; [exact H1|].
  split; [vm_compute; reflexivity | exact H2].
Defined.

(** X21.  app.py compares the proportion cut to an integer with the
    threshold.  For a proportion that is a float whose value is a number
    not under zero and a threshold that is a whole number, the alert is
    raised exactly when the proportion itself is at least the threshold.
    For a proportion that is an infinity or a NaN the conversion raises
    an exception, and no alert is raised for it. *)
Theorem whole_threshold_exact (k : Z) (f : Py.float) (x : Q) :
  (Py.float_value f = Py.Num x -> (0 <= x)%Q ->
   exists p : Z,
     App.to_percent (Json.JFloat f) = Some p
     /\ App.alert (Some (inject_Z k)) p = Qle_bool (inject_Z k) x)
  /\ ((forall y, Py.float_value f <> Py.Num y) ->
      App.to_percent (Json.JFloat f) = None).
Proof.
  split.
  - intros Hf Hx. exists (Py.truncate x). split.
    + unfold App.to_percent, Py.int_of_float. now rewrite Hf.
    + destruct (truncate_bounds x) as [B _].
      destruct (B Hx) as [B1 B2]. unfold App.alert.
      destruct (Qle_bool (inject_Z k) x) eqn:E.
      * apply Qle_bool_iff in E. apply Qle_bool_iff.
        rewrite <- Zle_Qle.
        assert (L : (inject_Z k < inject_Z (Py.truncate x) + 1)%Q)
          by (eapply Qle_lt_trans; eassumption).
        change 1%Q with (inject_Z 1) in L. rewrite <- inject_Z_plus in L.
        rewrite <- Zlt_Qlt in L. lia.
      * destruct (Qle_bool (inject_Z k) (inject_Z (Py.truncate x))) eqn:F;
          [|reflexivity].
        apply Qle_bool_iff in F.
        assert (G : (inject_Z k <= x)%Q) by (eapply Qle_trans; eassumption).
        apply Qle_bool_iff in G. congruence.
  - intros Hf. unfold App.to_percent, Py.int_of_float.
    destruct (Py.float_value f) as [y| | |]; [now elim (Hf y) | | |];
      reflexivity.
Qed.

Lemma whole_threshold_exact_witness :
  Py.float_value (Py.float_of_decimal false 299 (-1))
  = Py.Num (Qmake 8416101803648614 (2 ^ 48))
  /\ (0 <= Qmake 8416101803648614 (2 ^ 48))%Q
  /\ App.to_percent (Json.JFloat (Py.float_of_decimal false 299 (-1)))
     = Some 29%Z
  /\ App.alert (Some (inject_Z 30)) 29 = false
  /\ App.to_percent (Json.JFloat (S754_infinity false)) = None.
Proof.
  pose proof (whole_threshold_exact 30 (Py.float_of_decimal false 299 (-1))
                (Qmake 8416101803648614 (2 ^ 48))) as [H1 _].
  pose proof (whole_threshold_exact 30 (S754_infinity false) 0%Q) as [_ H2].
  assert (V : Py.float_value (Py.float_of_decimal false 299 (-1))
              = Py.Num (Qmake 8416101803648614 (2 ^ 48)))
    by (vm_compute; reflexivity).
  assert (P : (0 <= Qmake 8416101803648614 (2 ^ 48))%Q)
    by (unfold Qle; simpl; lia).
  destruct (H1 V P) as (p & Hp & Ha).
  assert (E : p = 29%Z).
  { vm_compute in Hp. now injection Hp as <-. }
  subst p.
  split; [exact V|]. split; [exact P|]. split; [exact Hp|].
  split; [rewrite Ha; vm_compute; reflexivity|].
  apply H2. discriminate.
Defined.

(* ===================================================================== *)
(** ** app.py: the configuration files *)
(* ===================================================================== *)

(** X22.  app.py [load_config] never changes a file that is there, and the
    only file it ever makes is [config.json], when it is asked for that
    path and the file is missing; it returns the defaults when the file
    is missing, cannot be read or does not decode. *)
Theorem load_config_keeps_files
    (json_load : string -> option Json.json) (json_dump : Json.json -> string)
    (path : string) (defaults : Json.json) (f : Config.files) :
  let '(config, f') :=
    Config.load_config json_load json_dump path (Some defaults) f in
  (forall p text, Config.file f p = Some text -> Config.file f' p = Some text)
  /\ (forall p, Config.file f' p <> Config.file f p ->
      p = Config.CONFIG_PATH /\ path = Config.CONFIG_PATH
      /\ Config.file f p = None)
  /\ (config = defaults
      \/ exists text, Config.file f path = Some text
                      /\ Config.can_read f path = true
                      /\ json_load text = Some config).
Proof.
  assert (Same : forall config,
             (config = defaults
              \/ exists text, Config.file f path = Some text
                              /\ Config.can_read f path = true
                              /\ json_load text = Some config) ->
             (forall p text, Config.file f p = Some text ->
                             Config.file f p = Some text)
             /\ (forall p, Config.file f p <> Config.file f p ->
                 p = Config.CONFIG_PATH /\ path = Config.CONFIG_PATH
                 /\ Config.file f p = None)
             /\ (config = defaults
                 \/ exists text, Config.file f path = Some text
                                 /\ Config.can_read f path = true
                                 /\ json_load text = Some config)).
  { intros config H. split; [auto|]. split; [|exact H].
    intros p Hp. now elim Hp. }
  unfold Config.load_config.
  destruct (Config.file f path) as [text|] eqn:E.
  - destruct (Config.can_read f path) eqn:R; [|apply Same; now left].
    destruct (json_load text) as [config|] eqn:L; apply Same;
      [right; now exists text | now left].
  - destruct (String.eqb_spec path Config.CONFIG_PATH) as [->|Hne];
      [|apply Same; now left].
    destruct (Config.can_write f Config.CONFIG_PATH); [|apply Same; now left].
    split; [|split; [|now left]].
    + intros p text H. simpl.
      destruct (String.eqb_spec p Config.CONFIG_PATH) as [Hp|_];
        [rewrite Hp in H; congruence | exact H].
    + intros p H. simpl in H.
      destruct (String.eqb_spec p Config.CONFIG_PATH) as [Hp|_];
        [rewrite Hp; auto | now elim H].
Qed.

(** X23.  app.py [load_config]: when [config.json] is missing and can be
    made, the call makes it from the defaults; if what [json.dump] writes
    for the defaults is read back by [json.load] as the defaults, the
    next call returns the defaults again and writes nothing. *)
Theorem load_config_round_trip
    (json_load : string -> option Json.json) (json_dump : Json.json -> string)
    (defaults : option Json.json) (f : Config.files) :
  let d := match defaults with Some d => d | None => Json.JObj [] end in
  json_load (json_dump d) = Some d ->
  Config.file f Config.CONFIG_PATH = None ->
  Config.can_write f Config.CONFIG_PATH = true ->
  Config.can_read f Config.CONFIG_PATH = true ->
  let f' := snd (Config.load_config json_load json_dump Config.CONFIG_PATH
                   defaults f) in
  Config.file f' Config.CONFIG_PATH = Some (json_dump d)
  /\ Config.load_config json_load json_dump Config.CONFIG_PATH defaults f'
     = (d, f').
Proof.
  intros d Hrt Hnone Hw Hr. unfold Config.load_config.
  rewrite Hnone, Hw. simpl. rewrite Hr. fold d. rewrite Hrt. auto.
Qed.

Lemma load_config_round_trip_witness :
  load_text (dump_empty_dict (Json.JObj [])) = Some (Json.JObj [])
  /\ Config.file no_files Config.CONFIG_PATH = None
  /\ Config.can_write no_files Config.CONFIG_PATH = true
  /\ Config.can_read no_files Config.CONFIG_PATH = true
  /\ Config.load_config load_text dump_empty_dict Config.CONFIG_PATH None
       (snd (Config.load_config load_text dump_empty_dict Config.CONFIG_PATH
               None no_files))
     = (Json.JObj [],
        snd (Config.load_config load_text dump_empty_dict Config.CONFIG_PATH
               None no_files)).
Proof.
  do 4 (split; [reflexivity|]).
  exact (proj2 (load_config_round_trip load_text dump_empty_dict None no_files
                  eq_refl eq_refl eq_refl eq_refl)).
Defined.


